(** * reviews/models.py: the review data model and its query helpers

    A shallow embedding of the Django models of [reviews/models.py] and of
    the helper methods defined on them.  Tables are lists of rows in the
    order the database hands them out, a queryset is the list of rows a
    query selects, a Python exception is a [Raise] in the [result] type,
    [float] is IEEE 754 binary64 (Rocq's primitive floats) and a
    [datetime] is a point on the integer time line. *)

From Stdlib Require Import ZArith String Ascii List Sorted Floats Lia.
From Stdlib Require Import DecimalString DecimalPos DecimalZ.
From stdpp Require Import base decidable option list strings.

Open Scope Z_scope.
Open Scope string_scope.

(** ** Python values and exceptions *)

(** The exceptions the helpers can meet. *)
Inductive exn : Type :=
  | DoesNotExist            (* Model.DoesNotExist, raised by QuerySet.get() *)
  | MultipleObjectsReturned (* raised by QuerySet.get() on two or more rows *)
  | AttributeError          (* attribute access on None *)
  | ValueError              (* a many-to-many manager of an unsaved row;
                               save() arguments that exclude each other *)
  | IntegrityError          (* NULL in a NOT NULL column, a key used twice *)
  | DatabaseError           (* a forced UPDATE that found no row *)
  | OverflowError.          (* int too large to convert to float *)

Inductive result (A : Type) : Type :=
  | Ok (a : A)
  | Raise (e : exn).
Arguments Ok {A} a.
Arguments Raise {A} e.

Definition bind {A B : Type} (m : result A) (k : A -> result B) : result B :=
  match m with
  | Ok a => k a
  | Raise e => Raise e
  end.

Notation "'do' x <- m ; k" := (bind m (fun x => k))
  (at level 10, x name, m at level 100, k at level 200).

(** The value of a call that returned, under [f]. *)
Definition result_map {A B : Type} (f : A -> B) (m : result A) : result B :=
  match m with
  | Ok a => Ok (f a)
  | Raise e => Raise e
  end.

(** [try: body except E: handler], for the exceptions [catches] accepts. *)
Definition try_except {A : Type} (body : result A) (catches : exn -> bool)
    (handler : result A) : result A :=
  match body with
  | Ok a => Ok a
  | Raise e => if catches e then handler else Raise e
  end.

Definition is_DoesNotExist (e : exn) : bool :=
  match e with DoesNotExist => true | _ => false end.

(** A bare [except:] catches everything. *)
Definition any_exn (_ : exn) : bool := true.

(** ** Strings *)

(** [needle in hay] on Python strings: [needle] occurs somewhere in [hay]. *)
Fixpoint str_in (needle hay : string) : bool :=
  String.prefix needle hay ||
  match hay with
  | EmptyString => false
  | String _ rest => str_in needle rest
  end.

(** [s[:n]]: the first [n] characters, all of [s] when it is shorter. *)
Fixpoint str_take (n : nat) (s : string) : string :=
  match n, s with
  | O, _ => EmptyString
  | S _, EmptyString => EmptyString
  | S n', String c rest => String c (str_take n' rest)
  end.

(** [s.startswith(p)]. *)
Definition startswith (s p : string) : bool := String.prefix p s.

(** [len(s) > 0] and friends take the length as a Python int. *)
Definition len (s : string) : Z := Z.of_nat (String.length s).

(** [str(n)] for a Python int: its decimal digits, after "-" when it is
    negative. *)
Definition str_of_int (n : Z) : string := NilZero.string_of_int (Z.to_int n).

(** [str(row.id)]: an id is an int, or None before the row is saved. *)
Definition str_of_id (id : option Z) : string :=
  match id with
  | Some n => str_of_int n
  | None => "None"
  end.

(** ** Numbers and time *)

(** [float(n)] for a Python int, as [int * float] converts its left
    operand: rounded to the nearest binary64, OverflowError when that is
    out of range. *)
Definition float_of_int (n : Z) : result float :=
  let f := SF2Prim (binary_normalize prec emax n 0 false) in
  if is_infinity f then Raise OverflowError else Ok f.

(** [n * x] for an int [n] and a float [x]. *)
Definition int_mul_float (n : Z) (x : float) : result float :=
  do c <- float_of_int n; Ok (c * x)%float.

(** A [datetime] value: a point on the time line, in microseconds. *)
Definition datetime : Type := Z.

(** What the two clock calls of a save read: [datetime.datetime.now()]
    and Django's [timezone.now()]. *)
Record Clock : Type := mkClock {
  datetime_now : datetime;
  timezone_now : datetime
}.

(** ** The object-relational layer *)

(** What [models.Model] gives every model: the primary key, its
    assignment on INSERT, the fields Django fills in by itself before a
    row is written ([auto_now_add]; [add] says the row is new), and the
    test that no column declared without [null=True] holds None. *)
Class Model (A : Type) : Type := {
  pk : A -> option Z;
  set_pk : Z -> A -> A;
  pre_save : bool -> datetime -> A -> A;
  not_null : A -> bool
}.

(** The arguments [Model.save] takes to force the statement it issues.
    Its other two, [using] and [update_fields], are at their defaults: one
    database, every column written. *)
Record SaveArgs : Type := mkSaveArgs {
  force_insert : bool;
  force_update : bool
}.

(** [save()]. *)
Definition save_defaults : SaveArgs := mkSaveArgs false false.

(** What an instance of [Model] has to satisfy: INSERT sets the key, and
    the automatic fields leave it alone. *)
Class ModelLaws (A : Type) `{Model A} : Prop := {
  pk_set_pk : forall i a, pk (set_pk i a) = Some i;
  pk_pre_save : forall add now a, pk (pre_save add now a) = pk a
}.

(** [qs[:1]]. *)
Definition qs_first {A : Type} (qs : list A) : list A := take 1 qs.

(** [qs.get()]: the only row of the queryset. *)
Definition qs_get {A : Type} (qs : list A) : result A :=
  match qs with
  | [] => Raise DoesNotExist
  | [a] => Ok a
  | _ :: _ :: _ => Raise MultipleObjectsReturned
  end.

(** [qs.count()]. *)
Definition qs_count {A : Type} (qs : list A) : Z := Z.of_nat (length qs).

(** [ORDER BY]: a stable sort by the "comes no later than" test [le]. *)
Fixpoint insert_by {A : Type} (le : A -> A -> bool) (x : A) (l : list A) : list A :=
  match l with
  | [] => [x]
  | y :: l' => if le x y then x :: y :: l' else y :: insert_by le x l'
  end.

Definition order_by {A : Type} (le : A -> A -> bool) (l : list A) : list A :=
  foldr (insert_by le) [] l.

(** [self.fk] for a foreign key that is not nullable, on an instance as
    it comes from the database (no related row is cached on it): the row
    of [table] whose [id] is the column's value is fetched, with
    [get(id=...)]; an unset column raises RelatedObjectDoesNotExist, a
    DoesNotExist. *)
Definition related {A : Type} (id : A -> option Z) (table : list A)
    (fk_id : option Z) : result A :=
  match fk_id with
  | Some i => qs_get (filter (fun row => id row = Some i) table)
  | None => Raise DoesNotExist
  end.

(** [row] is the row of [table] with the id [i]. *)
Definition row_of {A : Type} (id : A -> option Z) (table : list A) (i : Z)
    (row : A) : Prop :=
  filter (fun row' => id row' = Some i) table = [row].

(** The key an INSERT without one is given: past every key of the table. *)
Definition next_pk {A : Type} `{Model A} (table : list A) : Z :=
  1 + foldr Z.max 0 (omap pk table).

(** A save changes the instance, and then returns with the table it
    wrote or raises and leaves the table alone: the instance after the
    call, and the table or the exception.  The constraints checked are the
    ones every engine checks, NOT NULL and the uniqueness of the key. *)

(** UPDATE of the rows with the key [i]. *)
Definition Model_update {A : Type} `{Model A} (clock : Clock) (i : Z) (self : A)
    (table : list A) : A * result (list A) :=
  let self' := pre_save false (timezone_now clock) self in
  if not_null self'
  then (self', Ok ((fun row => if decide (pk row = Some i) then self' else row)
                     <$> table))
  else (self', Raise IntegrityError).

(** INSERT, with the key of the instance or, when it has none, the next
    one; the instance takes the new key only when the row is written. *)
Definition Model_insert {A : Type} `{Model A} (clock : Clock) (self : A)
    (table : list A) : A * result (list A) :=
  let self1 := pre_save true (timezone_now clock) self in
  if not_null self1
  then match pk self1 with
       | Some i =>
           if decide (Exists (fun row => pk row = Some i) table)
           then (self1, Raise IntegrityError)
           else (self1, Ok (table ++ [self1])%list)
       | None =>
           let self' := set_pk (next_pk table) self1 in
           (self', Ok (table ++ [self'])%list)
       end
  else (self1, Raise IntegrityError).

(** [models.Model.save]: UPDATE the rows with this key when there are
    some, INSERT otherwise, unless the arguments force one of them. *)
Definition Model_save {A : Type} `{Model A} (args : SaveArgs) (clock : Clock)
    (self : A) (table : list A) : A * result (list A) :=
  if force_insert args && force_update args then (self, Raise ValueError)
  else
    match pk self with
    | Some i =>
        if force_insert args then Model_insert clock self table
        else if decide (Exists (fun row => pk row = Some i) table)
        then Model_update clock i self table
        else if force_update args
        then (pre_save false (timezone_now clock) self, Raise DatabaseError)
        else Model_insert clock self table
    | None =>
        if force_update args then (self, Raise ValueError)
        else Model_insert clock self table
    end.

(** What a save that returned has left: the instance has a key and is a
    row of the new table, the only one under its key, and the rows under
    other keys are the ones from before. *)
Definition written {A : Type} `{Model A} (table : list A) (self' : A)
    (table' : list A) : Prop :=
  is_Some (pk self') /\
  self' ∈ table' /\
  (forall row, row ∈ table' -> pk row = pk self' -> row = self') /\
  (forall row, pk row <> pk self' -> row ∈ table' <-> row ∈ table).

(** ** The models *)

Record User : Type := mkUser {
  User_id : option Z;
  User_username : string
}.

Record Source : Type := mkSource {
  Source_id : option Z;
  Source_name : string;
  Source_url : string;
  Source_is_default : bool
}.

Record Review : Type := mkReview {
  Review_id : option Z;
  Review_name : string;
  Review_title : string;
  Review_description : string;
  Review_author_id : option Z;
  Review_create_date : option datetime;
  Review_last_update : option datetime;
  Review_objective : string;
  Review_status : string;
  Review_quality_assessment_cutoff_score : float;
  Review_study_selection_strategy : string;
  Review_quality_assessment_strategy : string;
  Review_data_extraction_strategy : string
}.

Record Question : Type := mkQuestion {
  Question_id : option Z;
  Question_review_id : option Z;
  Question_question : string;
  Question_population : string;
  Question_intervention : string;
  Question_comparison : string;
  Question_outcome : string;
  Question_question_type : string
}.

Record SelectionCriteria : Type := mkSelectionCriteria {
  SelectionCriteria_id : option Z;
  SelectionCriteria_review_id : option Z;
  SelectionCriteria_criteria_type : string;
  SelectionCriteria_description : string
}.

Record Article : Type := mkArticle {
  Article_id : option Z;
  Article_review_id : option Z;
  Article_bibtex_key : string;
  Article_title : string;
  Article_author : string;
  Article_journal : string;
  Article_year : string;
  Article_source_id : option Z;
  Article_pages : string;
  Article_volume : string;
  Article_abstract : string;
  Article_document_type : string;
  Article_author_keywords : string;
  Article_note : string;
  Article_search_session_id : option Z;
  Article_status : string
}.

Record Keyword : Type := mkKeyword {
  Keyword_id : option Z;
  Keyword_review_id : option Z;
  Keyword_description : string;
  Keyword_synonym_of_id : option Z
}.

Record QualityAnswer : Type := mkQualityAnswer {
  QualityAnswer_id : option Z;
  QualityAnswer_review_id : option Z;
  QualityAnswer_description : string;
  QualityAnswer_weight : float
}.

Record QualityQuestion : Type := mkQualityQuestion {
  QualityQuestion_id : option Z;
  QualityQuestion_review_id : option Z;
  QualityQuestion_description : string
}.

Record QualityAssessment : Type := mkQualityAssessment {
  QualityAssessment_id : option Z;
  QualityAssessment_user_id : option Z;
  QualityAssessment_article_id : option Z;
  QualityAssessment_question_id : option Z;
  QualityAssessment_answer_id : option Z;
  QualityAssessment_date : option datetime
}.

Record DataExtractionField : Type := mkDataExtractionField {
  DataExtractionField_id : option Z;
  DataExtractionField_review_id : option Z;
  DataExtractionField_description : string;
  DataExtractionField_field_type : string
}.

Record SearchSession : Type := mkSearchSession {
  SearchSession_id : option Z;
  SearchSession_review_id : option Z;
  SearchSession_source_id : option Z;
  SearchSession_search_string : string
}.

Record DataExtractionLookup : Type := mkDataExtractionLookup {
  DataExtractionLookup_id : option Z;
  DataExtractionLookup_field_id : option Z;
  DataExtractionLookup_value : string
}.

(** The tables the helpers read and write.  [review_co_authors] is the
    table behind [Review.co_authors]: pairs (review id, user id). *)
Record Store : Type := mkStore {
  users : list User;
  reviews : list Review;
  review_co_authors : list (Z * Z);
  questions : list Question;
  selection_criterias : list SelectionCriteria;
  articles : list Article;
  keywords : list Keyword;
  quality_answers : list QualityAnswer;
  quality_questions : list QualityQuestion;
  quality_assessments : list QualityAssessment
}.

Definition with_reviews (t : list Review) (db : Store) : Store :=
  mkStore (users db) t (review_co_authors db) (questions db)
    (selection_criterias db) (articles db) (keywords db) (quality_answers db)
    (quality_questions db) (quality_assessments db).

Definition with_selection_criterias (t : list SelectionCriteria) (db : Store) : Store :=
  mkStore (users db) (reviews db) (review_co_authors db) (questions db)
    t (articles db) (keywords db) (quality_answers db)
    (quality_questions db) (quality_assessments db).

Definition with_keywords (t : list Keyword) (db : Store) : Store :=
  mkStore (users db) (reviews db) (review_co_authors db) (questions db)
    (selection_criterias db) (articles db) t (quality_answers db)
    (quality_questions db) (quality_assessments db).

(** The store after a call on [db]: the one the call wrote when it
    returned, [db] itself when it raised. *)
Definition store_after (db : Store) (outcome : result Store) : Store :=
  match outcome with
  | Ok db' => db'
  | Raise _ => db
  end.

(** ** The helper methods

    A lookup [filter(column=value)] keeps the rows whose column holds
    [value]; Django reads [column=None] as "the column is NULL", so on
    nullable columns a lookup is equality of [option Z] values.  A model
    with [Meta.ordering] hands out its rows in that order.  A [save]
    method gives the instance after the call and, when the call returned,
    the store it left, or else the exception it raised. *)

#[export] Instance Review_Model : Model Review := {|
  pk := Review_id;
  set_pk i r :=
    mkReview (Some i) (Review_name r) (Review_title r) (Review_description r)
      (Review_author_id r) (Review_create_date r) (Review_last_update r)
      (Review_objective r) (Review_status r)
      (Review_quality_assessment_cutoff_score r)
      (Review_study_selection_strategy r) (Review_quality_assessment_strategy r)
      (Review_data_extraction_strategy r);
  (* create_date = DateTimeField(auto_now_add=True) *)
  pre_save add now r :=
    if add then
      mkReview (Review_id r) (Review_name r) (Review_title r) (Review_description r)
        (Review_author_id r) (Some now) (Review_last_update r)
        (Review_objective r) (Review_status r)
        (Review_quality_assessment_cutoff_score r)
        (Review_study_selection_strategy r) (Review_quality_assessment_strategy r)
        (Review_data_extraction_strategy r)
    else r;
  (* author, create_date and last_update; the text columns and the score
     always hold a value *)
  not_null r :=
    bool_decide (is_Some (Review_author_id r))
    && bool_decide (is_Some (Review_create_date r))
    && bool_decide (is_Some (Review_last_update r))
|}.

#[export] Instance SelectionCriteria_Model : Model SelectionCriteria := {|
  pk := SelectionCriteria_id;
  set_pk i c :=
    mkSelectionCriteria (Some i) (SelectionCriteria_review_id c)
      (SelectionCriteria_criteria_type c) (SelectionCriteria_description c);
  pre_save _ _ c := c;
  not_null c := bool_decide (is_Some (SelectionCriteria_review_id c))
|}.

#[export] Instance Keyword_Model : Model Keyword := {|
  pk := Keyword_id;
  set_pk i k :=
    mkKeyword (Some i) (Keyword_review_id k) (Keyword_description k)
      (Keyword_synonym_of_id k);
  pre_save _ _ k := k;
  (* synonym_of is declared null=True *)
  not_null k := bool_decide (is_Some (Keyword_review_id k))
|}.

Module Source.

(** [Source.set_url].  [value] is a [str], on which [str(value)] is the
    identity. *)
Definition set_url (self : Source) (value : string) : Source :=
  if negb (str_in "http://" value) && negb (str_in "https://" value)
     && (0 <? len value)%Z
  then mkSource (Source_id self) (Source_name self)
                ("http://" ++ value) (Source_is_default self)
  else mkSource (Source_id self) (Source_name self)
                value (Source_is_default self).

End Source.

Module Question.

Definition MAIN : string := "M".
Definition SECONDARY : string := "S".

(** [Question()]: every field at its default. *)
Definition new : Question := mkQuestion None None "" "" "" "" "" "".

End Question.

Module SelectionCriteria.

Definition INCLUSION : string := "I".
Definition EXCLUSION : string := "E".

(** [Meta.ordering = ("description",)]. *)
Definition ordering (a b : SelectionCriteria) : bool :=
  String.leb (SelectionCriteria_description a) (SelectionCriteria_description b).

(** [SelectionCriteria.save], with the arguments it hands on. *)
Definition save (args : SaveArgs) (clock : Clock) (db : Store)
    (self : SelectionCriteria) : SelectionCriteria * result Store :=
  let self1 :=
    mkSelectionCriteria (SelectionCriteria_id self)
      (SelectionCriteria_review_id self) (SelectionCriteria_criteria_type self)
      (str_take 200 (SelectionCriteria_description self)) in
  let '(self2, outcome) := Model_save args clock self1 (selection_criterias db) in
  (self2, result_map (fun table => with_selection_criterias table db) outcome).

End SelectionCriteria.

Module QualityAssessment.

(** [self.answer]: None for an unset column, the answer row otherwise. *)
Definition answer (db : Store) (self : QualityAssessment)
    : result (option QualityAnswer) :=
  match QualityAssessment_answer_id self with
  | None => Ok None
  | Some i =>
      do a <- qs_get (filter (fun a => QualityAnswer_id a = Some i)
                             (quality_answers db));
      Ok (Some a)
  end.

(** [QualityAssessment.__unicode__]. *)
Definition __unicode__ (db : Store) (self : QualityAssessment) : result string :=
  do article <- related Article_id (articles db) (QualityAssessment_article_id self);
  do question <- related QualityQuestion_id (quality_questions db)
                   (QualityAssessment_question_id self);
  Ok (str_of_id (Article_id article) ++ " " ++ str_of_id (QualityQuestion_id question)).

End QualityAssessment.

(** [answer.weight], where [answer] may be None. *)
Definition getattr_weight (answer : option QualityAnswer) : result float :=
  match answer with
  | Some a => Ok (QualityAnswer_weight a)
  | None => Raise AttributeError
  end.

Module Article.

Definition UNCLASSIFIED : string := "U".
Definition REJECTED : string := "R".
Definition ACCEPTED : string := "A".

(** [Article.get_quality_assesment]. *)
Definition get_quality_assesment (db : Store) (self : Article)
    : list QualityAssessment :=
  filter (fun qa => QualityAssessment_article_id qa = Article_id self)
         (quality_assessments db).

(** The [for] loop of [get_score], from the score so far. *)
Fixpoint get_score_loop (db : Store) (quality_assessments : list QualityAssessment)
    (score : float) : result float :=
  match quality_assessments with
  | [] => Ok score
  | quality_assessment :: rest =>
      do a <- QualityAssessment.answer db quality_assessment;
      do w <- getattr_weight a;
      get_score_loop db rest (score + w)%float
  end.

(** [Article.get_score]. *)
Definition get_score (db : Store) (self : Article) : result float :=
  get_score_loop db
    (filter (fun qa => QualityAssessment_article_id qa = Article_id self)
            (quality_assessments db))
    0%float.

End Article.

Module Keyword.

(** [Meta.ordering = ("description",)]. *)
Definition ordering (a b : Keyword) : bool :=
  String.leb (Keyword_description a) (Keyword_description b).

(** [Keyword.save], with the arguments it hands on. *)
Definition save (args : SaveArgs) (clock : Clock) (db : Store) (self : Keyword)
    : Keyword * result Store :=
  let self1 :=
    mkKeyword (Keyword_id self) (Keyword_review_id self)
      (str_take 200 (Keyword_description self)) (Keyword_synonym_of_id self) in
  let '(self2, outcome) := Model_save args clock self1 (keywords db) in
  (self2, result_map (fun table => with_keywords table db) outcome).

(** [Keyword.get_synonyms]. *)
Definition get_synonyms (db : Store) (self : Keyword) : result (list Keyword) :=
  do review <- related Review_id (reviews db) (Keyword_review_id self);
  Ok (order_by ordering
        (filter (fun k => Keyword_review_id k = Review_id review /\
                          Keyword_synonym_of_id k = Keyword_id self)
                (keywords db))).

End Keyword.

Module QualityAnswer.

(** [order_by('-weight')]: heavier answers first. *)
Definition by_weight_desc (a b : QualityAnswer) : bool :=
  (QualityAnswer_weight b <=? QualityAnswer_weight a)%float.

End QualityAnswer.

Module DataExtractionLookup.

(** [Meta.ordering = ("value",)]. *)
Definition ordering (a b : DataExtractionLookup) : bool :=
  String.leb (DataExtractionLookup_value a) (DataExtractionLookup_value b).

End DataExtractionLookup.

Module DataExtractionField.

Definition BOOLEAN_FIELD : string := "B".
Definition STRING_FIELD : string := "S".
Definition FLOAT_FIELD : string := "F".
Definition INTEGER_FIELD : string := "I".
Definition DATE_FIELD : string := "D".
Definition SELECT_ONE_FIELD : string := "O".
Definition SELECT_MANY_FIELD : string := "M".

(** [DataExtractionField.is_select_field]. *)
Definition is_select_field (self : DataExtractionField) : bool :=
  bool_decide (DataExtractionField_field_type self
                 ∈ [SELECT_ONE_FIELD; SELECT_MANY_FIELD]).

(** [DataExtractionField.get_select_values], on the table of lookup
    values. *)
Definition get_select_values (lookups : list DataExtractionLookup)
    (self : DataExtractionField) : list DataExtractionLookup :=
  order_by DataExtractionLookup.ordering
    (filter (fun v => DataExtractionLookup_field_id v = DataExtractionField_id self)
            lookups).

End DataExtractionField.

Module Review.

Definition UNPUBLISHED : string := "U".
Definition PUBLISHED : string := "P".
Definition SINGLE_FORM : string := "S".
Definition MULTIPLE_FORMS : string := "M".

(** [Review.save], which takes no argument and hands none on. *)
Definition save (clock : Clock) (db : Store) (self : Review)
    : Review * result Store :=
  let self1 :=
    mkReview (Review_id self) (Review_name self) (Review_title self)
      (Review_description self) (Review_author_id self) (Review_create_date self)
      (Some (datetime_now clock))
      (Review_objective self) (Review_status self)
      (Review_quality_assessment_cutoff_score self)
      (Review_study_selection_strategy self)
      (Review_quality_assessment_strategy self)
      (Review_data_extraction_strategy self) in
  let '(self2, outcome) := Model_save save_defaults clock self1 (reviews db) in
  (self2, result_map (fun table => with_reviews table db) outcome).

(** [Review.get_questions]. *)
Definition get_questions (db : Store) (self : Review) : list Question :=
  filter (fun q => Question_review_id q = Review_id self) (questions db).

(** [Review.get_main_question]. *)
Definition get_main_question (db : Store) (self : Review) : result Question :=
  try_except
    (qs_get (qs_first
       (filter (fun q => Question_review_id q = Review_id self /\
                         Question_question_type q = "M")
               (questions db))))
    is_DoesNotExist
    (Ok Question.new).

(** [self.co_authors.all()]: the users the co-author table links to
    this review; an unsaved review has no such manager. *)
Definition co_authors_all (db : Store) (self : Review) : result (list User) :=
  match Review_id self with
  | None => Raise ValueError
  | Some rid =>
      Ok (filter (fun u => Exists (fun link => link.1 = rid /\
                                               User_id u = Some link.2)
                                  (review_co_authors db))
                 (users db))
  end.

(** The [for] loop of [is_author_or_coauthor]. *)
Fixpoint is_coauthor_loop (user : User) (co_authors : list User) : bool :=
  match co_authors with
  | [] => false
  | co_author :: rest =>
      if decide (User_id user = User_id co_author) then true
      else is_coauthor_loop user rest
  end.

(** [Review.is_author_or_coauthor]. *)
Definition is_author_or_coauthor (db : Store) (self : Review) (user : User)
    : result bool :=
  do author <- related User_id (users db) (Review_author_id self);
  if decide (User_id user = User_id author) then Ok true
  else
    do co_authors <- co_authors_all db self;
    Ok (is_coauthor_loop user co_authors).

(** [Review.get_source_articles]. *)
Definition get_source_articles (db : Store) (self : Review)
    (source_id : option Z) : list Article :=
  match source_id with
  | None =>
      filter (fun a => Article_review_id a = Review_id self) (articles db)
  | Some sid =>
      filter (fun a => Article_review_id a = Review_id self /\
                       Article_source_id a = Some sid)
             (articles db)
  end.

(** [Review.get_accepted_articles]. *)
Definition get_accepted_articles (db : Store) (self : Review) : list Article :=
  filter (fun a => Article_review_id a = Review_id self /\
                   Article_status a = Article.ACCEPTED)
         (articles db).

(** [Review.get_quality_assessment_questions]. *)
Definition get_quality_assessment_questions (db : Store) (self : Review)
    : list QualityQuestion :=
  filter (fun q => QualityQuestion_review_id q = Review_id self)
         (quality_questions db).

(** [Review.get_quality_assessment_answers]; the model orders its rows
    by descending weight. *)
Definition get_quality_assessment_answers (db : Store) (self : Review)
    : list QualityAnswer :=
  order_by QualityAnswer.by_weight_desc
    (filter (fun a => QualityAnswer_review_id a = Review_id self)
            (quality_answers db)).

(** [Review.calculate_quality_assessment_max_score]. *)
Definition calculate_quality_assessment_max_score (db : Store) (self : Review)
    : result float :=
  try_except
    (let questions_count :=
       qs_count (filter (fun q => QualityQuestion_review_id q = Review_id self)
                        (quality_questions db)) in
     do higher_weight_answer <-
       qs_get (qs_first (order_by QualityAnswer.by_weight_desc
         (filter (fun a => QualityAnswer_review_id a = Review_id self)
                 (quality_answers db))));
     if negb (questions_count =? 0)%Z && true
     then int_mul_float questions_count (QualityAnswer_weight higher_weight_answer)
     else Ok 0%float)
    any_exn
    (Ok 0%float).

(** [Review.get_secondary_questions]. *)
Definition get_secondary_questions (db : Store) (self : Review) : list Question :=
  filter (fun q => Question_review_id q = Review_id self /\
                   Question_question_type q = "S")
         (questions db).

(** [Review.get_inclusion_criterias]. *)
Definition get_inclusion_criterias (db : Store) (self : Review)
    : list SelectionCriteria :=
  order_by SelectionCriteria.ordering
    (filter (fun c => SelectionCriteria_review_id c = Review_id self /\
                      SelectionCriteria_criteria_type c = "I")
            (selection_criterias db)).

(** [Review.get_exclusion_criterias]. *)
Definition get_exclusion_criterias (db : Store) (self : Review)
    : list SelectionCriteria :=
  order_by SelectionCriteria.ordering
    (filter (fun c => SelectionCriteria_review_id c = Review_id self /\
                      SelectionCriteria_criteria_type c = "E")
            (selection_criterias db)).

(** [Review.get_keywords]. *)
Definition get_keywords (db : Store) (self : Review) : list Keyword :=
  order_by Keyword.ordering
    (filter (fun k => Keyword_review_id k = Review_id self /\
                      Keyword_synonym_of_id k = None)
            (keywords db)).

(** [Review.get_generic_search_string], on the table of search sessions.
    [SearchSession(review=self)] is a row that is not saved, with the
    review's id and every other field at its default. *)
Definition get_generic_search_string (search_sessions : list SearchSession)
    (self : Review) : result SearchSession :=
  try_except
    (qs_get (qs_first
       (filter (fun s => SearchSession_review_id s = Review_id self /\
                         SearchSession_source_id s = None)
               search_sessions)))
    is_DoesNotExist
    (Ok (mkSearchSession None (Review_id self) None "")).

(** [Review.get_data_extraction_fields], on the table of fields. *)
Definition get_data_extraction_fields (fields : list DataExtractionField)
    (self : Review) : list DataExtractionField :=
  filter (fun f => DataExtractionField_review_id f = Review_id self) fields.

End Review.

(** ** Statements of the specification that the code is compared with *)

(** C1 as the specification states it: empty stays empty, a value that starts
    with a scheme is kept, every other value gets "http://" in front. *)
Definition set_url_by_prefix (value : string) : string :=
  if decide (value = "") then ""
  else if startswith value "http://" || startswith value "https://" then value
  else "http://" ++ value.

(** A member of the co-author collection of the review [r]: a user the
    co-author table links to the review. *)
Definition co_author_of (db : Store) (r : Review) (u : User) : Prop :=
  u ∈ users db /\
  exists link, link ∈ review_co_authors db /\
               Some link.1 = Review_id r /\ User_id u = Some link.2.

(** A question of the review [r] of type Main. *)
Definition main_question_of (r : Review) (q : Question) : Prop :=
  Question_review_id q = Review_id r /\ Question_question_type q = Question.MAIN.

#[export] Instance main_question_of_dec (r : Review) (q : Question) :
  Decision (main_question_of r q).
Proof. unfold main_question_of. apply _. Defined.

(** [c * n]: the character [c], [n] times. *)
Fixpoint str_repeat (c : ascii) (n : nat) : string :=
  match n with
  | O => ""
  | S n' => String c (str_repeat c n')
  end.

(** ** Sample rows *)

Module Sample.

Definition clock : Clock := mkClock 1000 1000.

Definition alice : User := mkUser (Some 1) "alice".
Definition bob : User := mkUser (Some 2) "bob".
Definition carol : User := mkUser (Some 3) "carol".

Definition review : Review :=
  mkReview (Some 1) "slr" "A review" "" (Some 1) (Some 10) (Some 20) ""
    "U" 0%float "S" "S" "S".

Definition q_secondary : Question :=
  mkQuestion (Some 1) (Some 1) "How often?" "" "" "" "" "S".
Definition q_main : Question :=
  mkQuestion (Some 2) (Some 1) "What works?" "" "" "" "" "M".
Definition q_elsewhere : Question :=
  mkQuestion (Some 3) (Some 2) "Another review" "" "" "" "" "M".

Definition kw_root : Keyword := mkKeyword (Some 1) (Some 1) "software" None.
Definition kw_synonym : Keyword := mkKeyword (Some 2) (Some 1) "program" (Some 1).
Definition kw_elsewhere : Keyword := mkKeyword (Some 3) (Some 2) "program" (Some 1).

(** 250 characters: 200 times "a", then 50 times "b". *)
Definition long_description : string :=
  str_repeat "a" 200 ++ str_repeat "b" 50.

Definition criteria_long : SelectionCriteria :=
  mkSelectionCriteria None (Some 1) "I" long_description.
Definition kw_long : Keyword :=
  mkKeyword (Some 2) (Some 1) long_description (Some 1).

Definition article (i : Z) (source : option Z) : Article :=
  mkArticle (Some i) (Some 1) "" "" "" "" "" source "" "" "" "" "" "" None "U".

Definition answer (i : Z) (w : float) : QualityAnswer :=
  mkQualityAnswer (Some i) (Some 1) "" w.
Definition quality_question (i : Z) : QualityQuestion :=
  mkQualityQuestion (Some i) (Some 1) "".
Definition assessment (i : Z) (a : option Z) : QualityAssessment :=
  mkQualityAssessment (Some i) (Some 1) (Some 7) (Some 1) a (Some 30).

Definition db : Store :=
  mkStore [alice; bob; carol] [review] [(1, 2)]
    [q_secondary; q_main; q_elsewhere] []
    [article 7 (Some 4); article 8 None]
    [kw_root; kw_synonym; kw_elsewhere]
    [answer 1 0.5; answer 2 1; answer 3 0]
    [quality_question 1; quality_question 2; quality_question 3]
    [assessment 1 (Some 2); assessment 2 (Some 1); assessment 3 (Some 3)].

(** The same store with one assessment of article 7 left unanswered. *)
Definition db_unanswered : Store :=
  mkStore [alice; bob; carol] [review] [(1, 2)]
    [q_secondary; q_main; q_elsewhere] []
    [article 7 (Some 4); article 8 None]
    [kw_root; kw_synonym; kw_elsewhere]
    [answer 1 0.5; answer 2 1; answer 3 0]
    [quality_question 1; quality_question 2; quality_question 3]
    [assessment 1 (Some 2); assessment 2 None].

Definition kw_application : Keyword :=
  mkKeyword (Some 4) (Some 1) "application" (Some 1).

(** The store with a second synonym of "software", stored after the
    first. *)
Definition db_synonyms : Store :=
  with_keywords [kw_root; kw_synonym; kw_elsewhere; kw_application] db.

(** A review that is not saved, of the author alice. *)
Definition draft : Review :=
  mkReview None "draft" "A draft" "" (Some 1) None None "" "U" 0%float "S" "S" "S".

Definition criteria (i : Z) (kind description : string) : SelectionCriteria :=
  mkSelectionCriteria (Some i) (Some 1) kind description.

(** The store with three selection criteria of the review. *)
Definition db_criteria : Store :=
  with_selection_criterias
    [criteria 1 "I" "peer reviewed"; criteria 2 "E" "not in English";
     criteria 3 "I" "empirical study"] db.

Definition search_sessions : list SearchSession :=
  [mkSearchSession (Some 1) (Some 1) (Some 4) "software AND testing";
   mkSearchSession (Some 2) (Some 1) None "software testing";
   mkSearchSession (Some 3) (Some 2) None "another review"].

Definition field_select : DataExtractionField :=
  mkDataExtractionField (Some 1) (Some 1) "Method" "O".

Definition lookups : list DataExtractionLookup :=
  [mkDataExtractionLookup (Some 1) (Some 1) "survey";
   mkDataExtractionLookup (Some 2) (Some 1) "experiment";
   mkDataExtractionLookup (Some 3) (Some 2) "case study"].

End Sample.

(** * Properties *)

(** ** Strings *)

Lemma prefix_app (p s : string) :
  String.prefix p s = true <-> exists t, s = p ++ t.
Proof.
  revert s. induction p as [|c p IH]; intros s.
  - split; [intros _; exists s; reflexivity | intros _; destruct s; reflexivity].
  - destruct s as [|d s]; cbn [String.prefix String.append].
    + split; [discriminate | intros [t Ht]; discriminate].
    + destruct (Ascii.ascii_dec c d) as [->|Hne].
      * rewrite (IH s). split; intros [t Ht]; exists t.
        -- rewrite Ht. reflexivity.
        -- injection Ht as Ht. exact Ht.
      * split; [discriminate | intros [t Ht]; injection Ht as Hc _; congruence].
Qed.

Lemma str_in_nil (needle : string) :
  str_in needle "" = String.prefix needle "" || false.
Proof. reflexivity. Qed.

Lemma str_in_cons (needle : string) (c : ascii) (hay : string) :
  str_in needle (String c hay) =
  String.prefix needle (String c hay) || str_in needle hay.
Proof. reflexivity. Qed.

Lemma str_in_occurs (needle hay : string) :
  str_in needle hay = true <-> exists a b, hay = a ++ needle ++ b.
Proof.
  induction hay as [|c hay IH]; [rewrite str_in_nil | rewrite str_in_cons].
  - rewrite orb_false_r, prefix_app. split.
    + intros [t Ht]. exists "", t. exact Ht.
    + intros (a & b & H). destruct a; cbn in H; [eauto | discriminate].
  - rewrite orb_true_iff, IH, prefix_app. split.
    + intros [[t Ht] | (a & b & H)].
      * exists "", t. exact Ht.
      * exists (String c a), b. cbn. rewrite H. reflexivity.
    + intros (a & b & H). destruct a as [|d a]; cbn in H.
      * left. eauto.
      * right. exists a, b. injection H as _ H. exact H.
Qed.

Lemma startswith_str_in (s p : string) :
  startswith s p = true -> str_in p s = true.
Proof.
  unfold startswith. intros H.
  destruct s; [rewrite str_in_nil | rewrite str_in_cons]; rewrite H; reflexivity.
Qed.

Lemma str_take_length (n : nat) (s : string) :
  String.length (str_take n s) = Nat.min n (String.length s).
Proof.
  revert s. induction n as [|n IH]; intros [|c s]; cbn; try reflexivity.
  rewrite IH. reflexivity.
Qed.

Lemma str_take_prefix (n : nat) (s : string) :
  exists rest, s = str_take n s ++ rest.
Proof.
  revert s. induction n as [|n IH]; intros s.
  - exists s. reflexivity.
  - destruct s as [|c s]; [exists ""; reflexivity |].
    destruct (IH s) as [rest Hrest]. exists rest.
    change (String c s = String c (str_take n s ++ rest)). f_equal. exact Hrest.
Qed.

Lemma str_take_get (n : nat) (s : string) (i : nat) :
  (i < n)%nat -> String.get i (str_take n s) = String.get i s.
Proof.
  revert s i. induction n as [|n IH]; intros s i Hi; [lia |].
  destruct s as [|c s]; [reflexivity |].
  destruct i as [|i]; [reflexivity |]. cbn. apply IH. lia.
Qed.

Lemma str_take_short (n : nat) (s : string) :
  (String.length s <= n)%nat -> str_take n s = s.
Proof.
  revert s. induction n as [|n IH]; intros [|c s] Hs; cbn in *; try reflexivity; [lia |].
  rewrite IH by lia. reflexivity.
Qed.

(** ** Source.set_url *)

(** C1 (counterexample): a value that holds "http://" anywhere but at its
    start is stored as it is, where the specification has "http://" put in front
    of it. *)
Lemma set_url_by_prefix_fails :
  ~ (forall (s : Source) (v : string),
       Source_url (Source.set_url s v) = set_url_by_prefix v).
Proof.
  intros H.
  specialize (H (mkSource None "" "" false) "example.org/?next=http://a").
  vm_compute in H. discriminate H.
Qed.

(** C1 (amended): [set_url] stores "" for the empty value, stores the
    value unchanged when "http://" or "https://" occurs anywhere in it (so
    also when it starts with one of them), and stores "http://" followed
    by the value otherwise; the other fields of the Source are kept. *)
Theorem set_url_by_occurrence (s : Source) (v : string) :
  (v = "" -> Source_url (Source.set_url s v) = "") /\
  ((exists a b, v = a ++ "http://" ++ b) \/ (exists a b, v = a ++ "https://" ++ b) ->
     Source_url (Source.set_url s v) = v) /\
  (startswith v "http://" = true \/ startswith v "https://" = true ->
     Source_url (Source.set_url s v) = v) /\
  (v <> "" ->
   ~ (exists a b, v = a ++ "http://" ++ b) ->
   ~ (exists a b, v = a ++ "https://" ++ b) ->
     Source_url (Source.set_url s v) = "http://" ++ v) /\
  Source_id (Source.set_url s v) = Source_id s /\
  Source_name (Source.set_url s v) = Source_name s /\
  Source_is_default (Source.set_url s v) = Source_is_default s.
Proof.
  assert (Hocc : (exists a b, v = a ++ "http://" ++ b) \/
                 (exists a b, v = a ++ "https://" ++ b) ->
                 Source_url (Source.set_url s v) = v).
  { intros Hv. unfold Source.set_url.
    destruct Hv as [Hv | Hv]; apply str_in_occurs in Hv; rewrite Hv;
      [| rewrite andb_false_r]; reflexivity. }
  split; [| split; [| split; [| split]]].
  - intros ->. reflexivity.
  - exact Hocc.
  - intros [H | H]; apply startswith_str_in, str_in_occurs in H; auto.
  - intros Hne H1 H2. unfold Source.set_url.
    destruct (str_in "http://" v) eqn:E1; [apply str_in_occurs in E1; contradiction |].
    destruct (str_in "https://" v) eqn:E2; [apply str_in_occurs in E2; contradiction |].
    destruct v as [|c v]; [congruence |].
    replace (0 <? len (String c v))%Z with true; [reflexivity |].
    symmetry. apply Z.ltb_lt. unfold len. cbn [String.length]. lia.
  - unfold Source.set_url.
    destruct (_ && _ && _); repeat split; reflexivity.
Qed.

Lemma set_url_by_occurrence_witness :
  Source_url (Source.set_url (mkSource None "ACM" "" false) "dl.acm.org")
    = "http://dl.acm.org" /\
  Source_url (Source.set_url (mkSource None "ACM" "" false) "https://dl.acm.org")
    = "https://dl.acm.org" /\
  Source_url (Source.set_url (mkSource None "ACM" "" false)
                "example.org/?next=http://a")
    = "example.org/?next=http://a".
Proof.
  split; [| split].
  - destruct (set_url_by_occurrence (mkSource None "ACM" "" false) "dl.acm.org")
      as (_ & _ & _ & Hplain & _).
    apply Hplain.
    + discriminate.
    + intros H. apply str_in_occurs in H. vm_compute in H. discriminate H.
    + intros H. apply str_in_occurs in H. vm_compute in H. discriminate H.
  - destruct (set_url_by_occurrence (mkSource None "ACM" "" false) "https://dl.acm.org")
      as (_ & _ & Hstart & _).
    apply Hstart. right. reflexivity.
  - destruct (set_url_by_occurrence (mkSource None "ACM" "" false)
                "example.org/?next=http://a") as (_ & Hocc & _).
    apply Hocc. left. exists "example.org/?next=", "a". reflexivity.
Defined.

(** ** Querysets *)

Lemma insert_by_Permutation {A : Type} (le : A -> A -> bool) (x : A) (l : list A) :
  insert_by le x l ≡ₚ x :: l.
Proof.
  induction l as [|y l IH]; cbn; [reflexivity |].
  destruct (le x y); [reflexivity |].
  rewrite IH. apply Permutation_swap.
Qed.

Lemma order_by_Permutation {A : Type} (le : A -> A -> bool) (l : list A) :
  order_by le l ≡ₚ l.
Proof.
  induction l as [|x l IH]; cbn; [reflexivity |].
  rewrite insert_by_Permutation, IH. reflexivity.
Qed.

Lemma elem_of_order_by {A : Type} (le : A -> A -> bool) (l : list A) (x : A) :
  x ∈ order_by le l <-> x ∈ l.
Proof. rewrite order_by_Permutation. reflexivity. Qed.

Lemma qs_get_first {A : Type} (qs : list A) :
  qs_get (qs_first qs) = match qs with [] => Raise DoesNotExist | a :: _ => Ok a end.
Proof. destruct qs as [|a [|b qs]]; reflexivity. Qed.

Lemma filter_nil_Forall {A : Type} (P : A -> Prop) `{!forall x, Decision (P x)}
    (l : list A) :
  filter P l = [] <-> Forall (fun x => ~ P x) l.
Proof.
  split.
  - intros Hnil. apply Forall_forall. intros x Hx HP.
    assert (Hin : x ∈ filter P l) by (apply list_elem_of_filter; auto).
    rewrite Hnil in Hin. inversion Hin.
  - intros Hall. induction Hall as [|x l Hx _ IH]; [reflexivity |].
    rewrite filter_cons, decide_False by exact Hx. exact IH.
Qed.

(** ** Related rows *)

Lemma related_row_of {A : Type} (id : A -> option Z) (table : list A) (i : Z) (row : A) :
  row_of id table i row ->
  related id table (Some i) = Ok row /\ id row = Some i /\ row ∈ table.
Proof.
  unfold row_of, related. intros Hrow. rewrite Hrow. split; [reflexivity |].
  assert (Hin : row ∈ filter (fun row' => id row' = Some i) table)
    by (rewrite Hrow; left).
  apply list_elem_of_filter in Hin. exact Hin.
Qed.

Lemma related_Ok {A : Type} (id : A -> option Z) (table : list A)
    (fk_id : option Z) (row : A) :
  related id table fk_id = Ok row ->
  exists i, fk_id = Some i /\ row_of id table i row.
Proof.
  unfold related, row_of. destruct fk_id as [i|]; [| discriminate].
  intros H. exists i. split; [reflexivity |]. revert H.
  destruct (filter _ table) as [|x [|y l]]; cbn; try discriminate.
  intros H. injection H as <-. reflexivity.
Qed.

(** A foreign key whose row is missing raises DoesNotExist, as an unset
    one does. *)
Lemma related_missing {A : Type} (id : A -> option Z) (table : list A) (i : Z) :
  (forall row, row ∈ table -> id row <> Some i) ->
  related id table (Some i) = Raise DoesNotExist.
Proof.
  intros Hno. unfold related.
  replace (filter (fun row => id row = Some i) table) with (@nil A); [reflexivity |].
  symmetry. apply filter_nil_Forall, Forall_forall. exact Hno.
Qed.

(** ** DataExtractionField.is_select_field *)

(** C9: [is_select_field] is true exactly for the field types Select-One
    ("O") and Select-Many ("M"), and false for every other field type, the
    five other codes of FIELD_TYPES among them. *)
Theorem is_select_field_exactly (f : DataExtractionField) :
  (DataExtractionField.is_select_field f = true <->
     DataExtractionField_field_type f = DataExtractionField.SELECT_ONE_FIELD \/
     DataExtractionField_field_type f = DataExtractionField.SELECT_MANY_FIELD) /\
  (DataExtractionField.is_select_field f = false <->
     DataExtractionField_field_type f <> "O" /\
     DataExtractionField_field_type f <> "M") /\
  (DataExtractionField_field_type f
     ∈ [DataExtractionField.BOOLEAN_FIELD; DataExtractionField.STRING_FIELD;
        DataExtractionField.FLOAT_FIELD; DataExtractionField.INTEGER_FIELD;
        DataExtractionField.DATE_FIELD] ->
   DataExtractionField.is_select_field f = false).
Proof.
  unfold DataExtractionField.is_select_field.
  assert (Hin : DataExtractionField_field_type f
                  ∈ [DataExtractionField.SELECT_ONE_FIELD;
                     DataExtractionField.SELECT_MANY_FIELD] <->
                DataExtractionField_field_type f = "O" \/
                DataExtractionField_field_type f = "M").
  { rewrite !elem_of_cons, elem_of_nil. tauto. }
  split; [| split].
  - rewrite bool_decide_eq_true. exact Hin.
  - rewrite bool_decide_eq_false, Hin. tauto.
  - intros H. apply bool_decide_eq_false. rewrite Hin.
    rewrite !elem_of_cons, elem_of_nil in H.
    unfold DataExtractionField.BOOLEAN_FIELD, DataExtractionField.STRING_FIELD,
      DataExtractionField.FLOAT_FIELD, DataExtractionField.INTEGER_FIELD,
      DataExtractionField.DATE_FIELD in H.
    intros [E | E]; rewrite E in H;
      repeat (destruct H as [H | H]; [discriminate H |]); exact H.
Qed.

Lemma is_select_field_exactly_witness :
  DataExtractionField.is_select_field (mkDataExtractionField (Some 1) (Some 1) "" "O")
    = true /\
  DataExtractionField.is_select_field (mkDataExtractionField (Some 2) (Some 1) "" "D")
    = false.
Proof.
  split.
  - destruct (is_select_field_exactly (mkDataExtractionField (Some 1) (Some 1) "" "O"))
      as (Hselect & _ & _).
    apply Hselect. left. reflexivity.
  - destruct (is_select_field_exactly (mkDataExtractionField (Some 2) (Some 1) "" "D"))
      as (_ & _ & Hother).
    apply Hother. do 4 right. left.
Defined.

(** ** Review.get_source_articles *)

(** C10: for a source id that is not None, [get_source_articles] returns
    exactly the articles of the review whose source is set and has that
    id; an article without a source is in no such result, and is returned
    by the call without a source id, which returns every article of the
    review. *)
Theorem get_source_articles_by_source (db : Store) (r : Review) (sid : Z) (a : Article) :
  (a ∈ Review.get_source_articles db r (Some sid) <->
     a ∈ articles db /\ Article_review_id a = Review_id r /\
     Article_source_id a = Some sid) /\
  (Article_source_id a = None -> a ∉ Review.get_source_articles db r (Some sid)) /\
  (a ∈ Review.get_source_articles db r None <->
     a ∈ articles db /\ Article_review_id a = Review_id r).
Proof.
  unfold Review.get_source_articles. rewrite !list_elem_of_filter.
  split; [tauto | split; [| tauto]].
  intros Hnone [[_ Hs] _]. rewrite Hnone in Hs. discriminate Hs.
Qed.

Lemma get_source_articles_by_source_witness :
  (Sample.article 7 (Some 4)
     ∈ Review.get_source_articles Sample.db Sample.review (Some 4)) /\
  (Sample.article 8 None
     ∉ Review.get_source_articles Sample.db Sample.review (Some 4)) /\
  (Sample.article 8 None
     ∈ Review.get_source_articles Sample.db Sample.review None).
Proof.
  destruct (get_source_articles_by_source Sample.db Sample.review 4
              (Sample.article 7 (Some 4))) as (Hwith & _ & _).
  destruct (get_source_articles_by_source Sample.db Sample.review 4
              (Sample.article 8 None)) as (_ & Hnever & Hall).
  split; [| split].
  - apply Hwith. split; [left | split; reflexivity].
  - apply Hnever. reflexivity.
  - apply Hall. split; [right; left | reflexivity].
Defined.

(** ** Keyword.get_synonyms *)

(** C8: [get_synonyms] returns exactly when the keyword's review is a row
    of the store, and what it returns is exactly the keywords of the same
    review whose synonym_of id is the keyword's id, each as often as the
    table holds it, and no keyword of another review, whatever its
    description. *)
Theorem get_synonyms_exactly (db : Store) (k : Keyword) :
  ((exists synonyms, Keyword.get_synonyms db k = Ok synonyms) <->
   exists rid r, Keyword_review_id k = Some rid /\
                 row_of Review_id (reviews db) rid r) /\
  (forall synonyms, Keyword.get_synonyms db k = Ok synonyms ->
    synonyms ≡ₚ filter (fun k' => Keyword_review_id k' = Keyword_review_id k /\
                                  Keyword_synonym_of_id k' = Keyword_id k)
                       (keywords db) /\
    (forall k', k' ∈ synonyms <->
       k' ∈ keywords db /\ Keyword_review_id k' = Keyword_review_id k /\
       Keyword_synonym_of_id k' = Keyword_id k) /\
    (forall k', Keyword_review_id k' <> Keyword_review_id k -> k' ∉ synonyms)).
Proof.
  unfold Keyword.get_synonyms. split.
  - split.
    + intros [synonyms H].
      destruct (related Review_id (reviews db) (Keyword_review_id k))
        as [r|e] eqn:Hrel; [| discriminate].
      apply related_Ok in Hrel. destruct Hrel as (rid & Hrid & Hrow). eauto.
    + intros (rid & r & Hrid & Hrow).
      destruct (related_row_of _ _ _ _ Hrow) as (Hrel & _ & _).
      rewrite Hrid, Hrel. cbn [bind]. eauto.
  - intros synonyms.
    destruct (related Review_id (reviews db) (Keyword_review_id k))
      as [r|e] eqn:Hrel; [| discriminate].
    apply related_Ok in Hrel. destruct Hrel as (rid & Hrid & Hrow).
    destruct (related_row_of _ _ _ _ Hrow) as (_ & Hr & _).
    cbn [bind]. intros H. injection H as <-. rewrite Hrid.
    assert (Hfilter :
      filter (fun k0 => Keyword_review_id k0 = Review_id r /\
                        Keyword_synonym_of_id k0 = Keyword_id k) (keywords db)
      = filter (fun k' => Keyword_review_id k' = Some rid /\
                          Keyword_synonym_of_id k' = Keyword_id k) (keywords db)).
    { apply list_filter_iff. intros k'. rewrite Hr. reflexivity. }
    rewrite Hfilter.
    assert (Hmem : forall k',
      k' ∈ order_by Keyword.ordering
             (filter (fun k0 => Keyword_review_id k0 = Some rid /\
                                Keyword_synonym_of_id k0 = Keyword_id k) (keywords db)) <->
      k' ∈ keywords db /\ Keyword_review_id k' = Some rid /\
      Keyword_synonym_of_id k' = Keyword_id k).
    { intros k'. rewrite elem_of_order_by, list_elem_of_filter. tauto. }
    split; [apply order_by_Permutation | split].
    + exact Hmem.
    + intros k' Hne Hin. apply Hmem in Hin. tauto.
Qed.

Lemma get_synonyms_exactly_witness :
  (exists synonyms, Keyword.get_synonyms Sample.db_synonyms Sample.kw_root = Ok synonyms) /\
  [Sample.kw_application; Sample.kw_synonym]
    ≡ₚ filter (fun k' => Keyword_review_id k' = Keyword_review_id Sample.kw_root /\
                         Keyword_synonym_of_id k' = Keyword_id Sample.kw_root)
              (keywords Sample.db_synonyms) /\
  Sample.kw_elsewhere ∉ [Sample.kw_application; Sample.kw_synonym].
Proof.
  destruct (get_synonyms_exactly Sample.db_synonyms Sample.kw_root) as [Hreturns Hexactly].
  split.
  - apply Hreturns. exists 1, Sample.review. split; reflexivity.
  - destruct (Hexactly [Sample.kw_application; Sample.kw_synonym] eq_refl)
      as (Hperm & _ & Hother).
    split; [exact Hperm |]. apply Hother. discriminate.
Defined.

Example get_synonyms_sample :
  Keyword.get_synonyms Sample.db Sample.kw_root = Ok [Sample.kw_synonym] /\
  Keyword.get_synonyms Sample.db_synonyms Sample.kw_root
    = Ok [Sample.kw_application; Sample.kw_synonym] /\
  Keyword.get_synonyms Sample.db Sample.kw_elsewhere = Raise DoesNotExist.
Proof. vm_compute. auto. Qed.

(** ** Review.get_main_question *)

(** C5: [get_main_question] never raises; for a review without a Main
    question it returns the default [Question()], and when the review has
    Main questions it returns one of them, which is that question when
    there is only one. *)
Theorem get_main_question_or_default (db : Store) (r : Review) :
  (exists q, Review.get_main_question db r = Ok q) /\
  (Forall (fun q => ~ main_question_of r q) (questions db) ->
     Review.get_main_question db r = Ok Question.new) /\
  (Exists (main_question_of r) (questions db) ->
     exists q, Review.get_main_question db r = Ok q /\
               q ∈ questions db /\ main_question_of r q) /\
  (forall q, q ∈ questions db -> main_question_of r q ->
     (forall q', q' ∈ questions db -> main_question_of r q' -> q' = q) ->
     Review.get_main_question db r = Ok q).
Proof.
  unfold Review.get_main_question. rewrite qs_get_first.
  change (filter _ (questions db)) with (filter (main_question_of r) (questions db)).
  destruct (filter (main_question_of r) (questions db)) as [|q0 qs] eqn:E.
  - cbn. split; [eauto | split; [reflexivity | split]].
    + intros Hex. apply filter_nil_Forall in E. apply Exists_exists in Hex.
      destruct Hex as (q & Hq & Hm). rewrite Forall_forall in E.
      exfalso. exact (E q Hq Hm).
    + intros q Hq Hm _. apply filter_nil_Forall in E. rewrite Forall_forall in E.
      exfalso. exact (E q Hq Hm).
  - assert (H0 : q0 ∈ filter (main_question_of r) (questions db))
      by (rewrite E; left).
    apply list_elem_of_filter in H0. destruct H0 as [Hm0 Hq0].
    cbn. split; [eauto | split; [| split]].
    + intros Hall. rewrite Forall_forall in Hall. exfalso. exact (Hall q0 Hq0 Hm0).
    + intros _. exists q0. auto.
    + intros q _ _ Huniq. rewrite (Huniq q0 Hq0 Hm0). reflexivity.
Qed.

Lemma get_main_question_or_default_witness :
  (exists q, Review.get_main_question Sample.db Sample.review = Ok q /\
             q ∈ questions Sample.db /\ main_question_of Sample.review q) /\
  Review.get_main_question Sample.db_unanswered
    (mkReview (Some 3) "" "" "" (Some 1) None None "" "U" 0%float "S" "S" "S")
    = Ok Question.new.
Proof.
  split.
  - destruct (get_main_question_or_default Sample.db Sample.review)
      as (_ & _ & Hmain & _).
    apply Hmain. apply Exists_cons_tl, Exists_cons_hd. split; reflexivity.
  - destruct (get_main_question_or_default Sample.db_unanswered
                (mkReview (Some 3) "" "" "" (Some 1) None None "" "U" 0%float "S" "S" "S"))
      as (_ & Hnone & _).
    apply Hnone. repeat constructor; intros [Hr _]; discriminate Hr.
Defined.

Example get_main_question_sample :
  Review.get_main_question Sample.db Sample.review = Ok Sample.q_main.
Proof. vm_compute. reflexivity. Qed.

(** ** Review.is_author_or_coauthor *)

Lemma is_coauthor_loop_true (user : User) (co_authors : list User) :
  Review.is_coauthor_loop user co_authors = true <->
  exists co_author, co_author ∈ co_authors /\ User_id user = User_id co_author.
Proof.
  induction co_authors as [|c l IH]; cbn.
  - split; [discriminate | intros (co & Hco & _); inversion Hco].
  - destruct (decide (User_id user = User_id c)) as [Heq | Hne].
    + split; [intros _; exists c; split; [left | exact Heq] | reflexivity].
    + rewrite IH. split.
      * intros (co & Hco & Hid). exists co. split; [right; exact Hco | exact Hid].
      * intros (co & Hco & Hid). apply elem_of_cons in Hco.
        destruct Hco as [-> | Hco]; [contradiction | eauto].
Qed.

(** What [co_authors.all()] returns for a saved review is its co-author
    collection. *)
Lemma co_authors_all_saved (db : Store) (r : Review) (rid : Z) :
  Review_id r = Some rid ->
  exists co_authors,
    Review.co_authors_all db r = Ok co_authors /\
    forall u, u ∈ co_authors <-> co_author_of db r u.
Proof.
  intros Hrid. unfold Review.co_authors_all, co_author_of. rewrite Hrid.
  eexists. split; [reflexivity |].
  intros u. rewrite list_elem_of_filter, Exists_exists. split.
  - intros [(link & Hlink & H1 & H2) Hu]. split; [exact Hu |].
    exists link. rewrite H1. auto.
  - intros [Hu (link & Hlink & H1 & H2)]. split; [| exact Hu].
    exists link. injection H1 as H1. auto.
Qed.

(** C7 (counterexample): for a review that is not saved and a user who is
    not its author, [is_author_or_coauthor] raises ValueError where the
    specification has it return false. *)
Lemma is_author_or_coauthor_unsaved_raises :
  ~ (forall (db : Store) (r : Review) (user : User),
       exists b, Review.is_author_or_coauthor db r user = Ok b /\
         (b = true <->
            User_id user = Review_author_id r \/
            exists co_author, co_author_of db r co_author /\
                              User_id user = User_id co_author)).
Proof.
  intros H. destruct (H Sample.db Sample.draft Sample.carol) as (b & Hb & _).
  vm_compute in Hb. discriminate Hb.
Qed.

(** C7 (amended): for a saved review whose author is a user of the store,
    [is_author_or_coauthor] returns true if and only if the user's id is
    the author's id or the id of some member of the review's co-author
    collection, and false for every other user. *)
Theorem is_author_or_coauthor_iff (db : Store) (r : Review) (user : User)
    (rid author_id : Z) (author : User) :
  Review_id r = Some rid ->
  Review_author_id r = Some author_id ->
  row_of User_id (users db) author_id author ->
  exists b : bool,
    Review.is_author_or_coauthor db r user = Ok b /\
    (b = true <->
       User_id user = Some author_id \/
       exists co_author, co_author_of db r co_author /\
                         User_id user = User_id co_author) /\
    (b = false <->
       User_id user <> Some author_id /\
       forall co_author, co_author_of db r co_author ->
                         User_id user <> User_id co_author).
Proof.
  intros Hrid Hauthor Hrow.
  destruct (related_row_of _ _ _ _ Hrow) as (Hrel & Haid & _).
  destruct (co_authors_all_saved db r rid Hrid) as (co_authors & Hall & Hmem).
  unfold Review.is_author_or_coauthor. rewrite Hauthor, Hrel. cbn [bind].
  rewrite Haid.
  destruct (decide (User_id user = Some author_id)) as [Heq | Hne].
  - exists true. split; [reflexivity | split].
    + tauto.
    + split; [discriminate | tauto].
  - rewrite Hall. cbn [bind]. eexists. split; [reflexivity | split].
    + rewrite is_coauthor_loop_true. split.
      * intros (co & Hco & Hid). right. exists co. split; [apply Hmem; exact Hco | exact Hid].
      * intros [Habs | (co & Hco & Hid)]; [contradiction |].
        exists co. split; [apply Hmem; exact Hco | exact Hid].
    + rewrite <- not_true_iff_false, is_coauthor_loop_true. split.
      * intros Hno. split; [exact Hne |]. intros co Hco Hid.
        apply Hno. exists co. split; [apply Hmem; exact Hco | exact Hid].
      * intros [_ Hno] (co & Hco & Hid). apply (Hno co); [apply Hmem; exact Hco | exact Hid].
Qed.

Lemma is_author_or_coauthor_iff_witness :
  exists b : bool,
    Review.is_author_or_coauthor Sample.db Sample.review Sample.bob = Ok b /\
    (b = true <->
       User_id Sample.bob = Some 1 \/
       exists co_author, co_author_of Sample.db Sample.review co_author /\
                         User_id Sample.bob = User_id co_author) /\
    (b = false <->
       User_id Sample.bob <> Some 1 /\
       forall co_author, co_author_of Sample.db Sample.review co_author ->
                         User_id Sample.bob <> User_id co_author).
Proof.
  apply (is_author_or_coauthor_iff Sample.db Sample.review Sample.bob 1 1 Sample.alice);
    reflexivity.
Defined.

Example is_author_or_coauthor_sample :
  Review.is_author_or_coauthor Sample.db Sample.review Sample.alice = Ok true /\
  Review.is_author_or_coauthor Sample.db Sample.review Sample.bob = Ok true /\
  Review.is_author_or_coauthor Sample.db Sample.review Sample.carol = Ok false /\
  Review.is_author_or_coauthor Sample.db Sample.draft Sample.carol = Raise ValueError.
Proof. vm_compute. auto. Qed.

(** ** models.Model.save *)

#[export] Instance Review_ModelLaws : ModelLaws Review.
Proof. split; [reflexivity | intros [] now a; reflexivity]. Qed.

#[export] Instance SelectionCriteria_ModelLaws : ModelLaws SelectionCriteria.
Proof. split; reflexivity. Qed.

#[export] Instance Keyword_ModelLaws : ModelLaws Keyword.
Proof. split; reflexivity. Qed.

Section model_save.
Context {A : Type} `{ModelLaws A}.

Lemma next_pk_fresh (table : list A) (row : A) (i : Z) :
  row ∈ table -> pk row = Some i -> i < next_pk table.
Proof.
  unfold next_pk. induction table as [|x t IH]; intros Hin Hpk.
  - inversion Hin.
  - apply elem_of_cons in Hin. destruct Hin as [<- | Hin].
    + cbn. rewrite Hpk. cbn. lia.
    + specialize (IH Hin Hpk). cbn. destruct (pk x); cbn; lia.
Qed.

Lemma Model_update_written (clock : Clock) (i : Z) (self : A) (table table' : list A) :
  pk self = Some i ->
  Exists (fun row => pk row = Some i) table ->
  (Model_update clock i self table).2 = Ok table' ->
  written table (Model_update clock i self table).1 table'.
Proof.
  intros Hpk Hex. unfold Model_update.
  destruct (not_null (pre_save false (timezone_now clock) self)); cbn [fst snd];
    [| discriminate].
  intros E. injection E as <-. unfold written. rewrite pk_pre_save, Hpk.
  split; [eauto | split; [| split]].
  - apply Exists_exists in Hex. destruct Hex as (row & Hrow & Hi).
    apply list_elem_of_fmap. exists row. rewrite decide_True by exact Hi. auto.
  - intros row Hrow Hi. apply list_elem_of_fmap in Hrow.
    destruct Hrow as (row0 & -> & Hrow0).
    destruct (decide (pk row0 = Some i)); [reflexivity | contradiction].
  - intros row Hne. rewrite list_elem_of_fmap. split.
    + intros (row0 & -> & Hrow0).
      destruct (decide (pk row0 = Some i)); [| exact Hrow0].
      rewrite pk_pre_save, Hpk in Hne. contradiction.
    + intros Hrow. exists row. rewrite decide_False by exact Hne. auto.
Qed.

Lemma Model_insert_written (clock : Clock) (self : A) (table table' : list A) :
  (Model_insert clock self table).2 = Ok table' ->
  written table (Model_insert clock self table).1 table' /\
  length table' = S (length table) /\
  forall row, row ∈ table -> pk row <> pk (Model_insert clock self table).1.
Proof.
  unfold Model_insert.
  destruct (not_null (pre_save true (timezone_now clock) self)); cbn [fst snd];
    [| discriminate].
  destruct (pk (pre_save true (timezone_now clock) self)) as [i|] eqn:Hpk.
  - destruct (decide (Exists (fun row => pk row = Some i) table)) as [Hex | Hno];
      cbn [fst snd]; [discriminate |].
    intros E. injection E as <-. unfold written. rewrite Hpk.
    assert (Hfresh : forall row, row ∈ table -> pk row <> Some i).
    { intros row Hrow Hi. apply Hno, Exists_exists. eauto. }
    split; [split; [eauto | split; [| split]] | split; [| exact Hfresh]].
    + apply elem_of_app. right. left.
    + intros row Hrow Hi. apply elem_of_app in Hrow. destruct Hrow as [Hrow | Hrow].
      * exfalso. exact (Hfresh row Hrow Hi).
      * apply list_elem_of_singleton in Hrow. exact Hrow.
    + intros row Hne. rewrite elem_of_app, list_elem_of_singleton. split; [| auto].
      intros [Hrow | ->]; [exact Hrow | contradiction].
    + rewrite length_app. cbn. lia.
  - cbn [fst snd]. intros E. injection E as <-. unfold written. rewrite pk_set_pk.
    assert (Hfresh : forall row, row ∈ table -> pk row <> Some (next_pk table)).
    { intros row Hrow Hi. pose proof (next_pk_fresh table row _ Hrow Hi). lia. }
    split; [split; [eauto | split; [| split]] | split; [| exact Hfresh]].
    + apply elem_of_app. right. left.
    + intros row Hrow Hi. apply elem_of_app in Hrow. destruct Hrow as [Hrow | Hrow].
      * exfalso. exact (Hfresh row Hrow Hi).
      * apply list_elem_of_singleton in Hrow. exact Hrow.
    + intros row Hne. rewrite elem_of_app, list_elem_of_singleton. split; [| auto].
      intros [Hrow | ->]; [exact Hrow |].
      rewrite pk_set_pk in Hne. contradiction.
    + rewrite length_app. cbn. lia.
Qed.

(** Whatever its arguments, a save that returned has written the
    instance. *)
Lemma Model_save_written (args : SaveArgs) (clock : Clock) (self : A)
    (table table' : list A) :
  (Model_save args clock self table).2 = Ok table' ->
  written table (Model_save args clock self table).1 table'.
Proof.
  unfold Model_save.
  destruct (force_insert args && force_update args); [discriminate |].
  destruct (pk self) as [i|] eqn:Hpk.
  - destruct (force_insert args).
    + intros E. apply Model_insert_written. exact E.
    + destruct (decide (Exists (fun row => pk row = Some i) table)) as [Hex | Hno].
      * apply Model_update_written; assumption.
      * destruct (force_update args); [discriminate |].
        intros E. apply Model_insert_written. exact E.
  - destruct (force_update args); [discriminate |].
    intros E. apply Model_insert_written. exact E.
Qed.

(** [save()] returns when no NOT NULL column is left unset, and raises
    IntegrityError when one is. *)
Lemma Model_save_defaults_returns (clock : Clock) (self : A) (table : list A) :
  (forall add, not_null (pre_save add (timezone_now clock) self) = true) ->
  exists table', (Model_save save_defaults clock self table).2 = Ok table'.
Proof.
  intros Hnn. unfold Model_save, save_defaults, Model_update, Model_insert.
  cbn [force_insert force_update andb].
  destruct (pk self) as [i|] eqn:Hpk.
  - destruct (decide (Exists (fun row => pk row = Some i) table)) as [Hex | Hno].
    + rewrite Hnn. cbn [snd]. eauto.
    + rewrite Hnn, pk_pre_save, Hpk. rewrite decide_False by exact Hno.
      cbn [snd]. eauto.
  - rewrite Hnn, pk_pre_save, Hpk. cbn [snd]. eauto.
Qed.

Lemma Model_save_defaults_raises (clock : Clock) (self : A) (table : list A) :
  (forall add, not_null (pre_save add (timezone_now clock) self) = false) ->
  (Model_save save_defaults clock self table).2 = Raise IntegrityError.
Proof.
  intros Hnn. unfold Model_save, save_defaults, Model_update, Model_insert.
  cbn [force_insert force_update andb].
  destruct (pk self) as [i|] eqn:Hpk.
  - destruct (decide (Exists (fun row => pk row = Some i) table)) as [Hex | Hno];
      rewrite Hnn; reflexivity.
  - rewrite Hnn. reflexivity.
Qed.

End model_save.

(** ** SelectionCriteria.save and Keyword.save *)

Lemma SelectionCriteria_save_table (args : SaveArgs) (clock : Clock) (db : Store)
    (sc : SelectionCriteria) :
  SelectionCriteria.save args clock db sc =
  ((Model_save args clock
      (mkSelectionCriteria (SelectionCriteria_id sc) (SelectionCriteria_review_id sc)
         (SelectionCriteria_criteria_type sc)
         (str_take 200 (SelectionCriteria_description sc)))
      (selection_criterias db)).1,
   result_map (fun table => with_selection_criterias table db)
     (Model_save args clock
        (mkSelectionCriteria (SelectionCriteria_id sc) (SelectionCriteria_review_id sc)
           (SelectionCriteria_criteria_type sc)
           (str_take 200 (SelectionCriteria_description sc)))
        (selection_criterias db)).2).
Proof. unfold SelectionCriteria.save. destruct (Model_save _ _ _ _). reflexivity. Qed.

Lemma Keyword_save_table (args : SaveArgs) (clock : Clock) (db : Store) (k : Keyword) :
  Keyword.save args clock db k =
  ((Model_save args clock
      (mkKeyword (Keyword_id k) (Keyword_review_id k)
         (str_take 200 (Keyword_description k)) (Keyword_synonym_of_id k))
      (keywords db)).1,
   result_map (fun table => with_keywords table db)
     (Model_save args clock
        (mkKeyword (Keyword_id k) (Keyword_review_id k)
           (str_take 200 (Keyword_description k)) (Keyword_synonym_of_id k))
        (keywords db)).2).
Proof. unfold Keyword.save. destruct (Model_save _ _ _ _). reflexivity. Qed.

(** A save changes the key of a SelectionCriteria or a Keyword at most. *)
Lemma SelectionCriteria_Model_save_fields (args : SaveArgs) (clock : Clock)
    (table : list SelectionCriteria) (self : SelectionCriteria) :
  SelectionCriteria_description (Model_save args clock self table).1
    = SelectionCriteria_description self /\
  SelectionCriteria_review_id (Model_save args clock self table).1
    = SelectionCriteria_review_id self /\
  SelectionCriteria_criteria_type (Model_save args clock self table).1
    = SelectionCriteria_criteria_type self.
Proof.
  unfold Model_save, Model_update, Model_insert. cbn.
  repeat case_match; cbn; auto.
Qed.

Lemma Keyword_Model_save_fields (args : SaveArgs) (clock : Clock)
    (table : list Keyword) (self : Keyword) :
  Keyword_description (Model_save args clock self table).1 = Keyword_description self /\
  Keyword_review_id (Model_save args clock self table).1 = Keyword_review_id self /\
  Keyword_synonym_of_id (Model_save args clock self table).1
    = Keyword_synonym_of_id self.
Proof.
  unfold Model_save, Model_update, Model_insert. cbn.
  repeat case_match; cbn; auto.
Qed.

Lemma SelectionCriteria_save_fields (args : SaveArgs) (clock : Clock) (db : Store)
    (sc : SelectionCriteria) :
  SelectionCriteria_description (SelectionCriteria.save args clock db sc).1
    = str_take 200 (SelectionCriteria_description sc) /\
  SelectionCriteria_review_id (SelectionCriteria.save args clock db sc).1
    = SelectionCriteria_review_id sc /\
  SelectionCriteria_criteria_type (SelectionCriteria.save args clock db sc).1
    = SelectionCriteria_criteria_type sc.
Proof.
  rewrite SelectionCriteria_save_table. cbn [fst].
  exact (SelectionCriteria_Model_save_fields args clock (selection_criterias db)
           (mkSelectionCriteria (SelectionCriteria_id sc) (SelectionCriteria_review_id sc)
              (SelectionCriteria_criteria_type sc)
              (str_take 200 (SelectionCriteria_description sc)))).
Qed.

Lemma Keyword_save_fields (args : SaveArgs) (clock : Clock) (db : Store) (k : Keyword) :
  Keyword_description (Keyword.save args clock db k).1
    = str_take 200 (Keyword_description k) /\
  Keyword_review_id (Keyword.save args clock db k).1 = Keyword_review_id k /\
  Keyword_synonym_of_id (Keyword.save args clock db k).1 = Keyword_synonym_of_id k.
Proof.
  rewrite Keyword_save_table. cbn [fst].
  exact (Keyword_Model_save_fields args clock (keywords db)
           (mkKeyword (Keyword_id k) (Keyword_review_id k)
              (str_take 200 (Keyword_description k)) (Keyword_synonym_of_id k))).
Qed.

(** What a save that returned has written, for the two models. *)
Lemma SelectionCriteria_save_written (args : SaveArgs) (clock : Clock) (db db' : Store)
    (sc : SelectionCriteria) :
  (SelectionCriteria.save args clock db sc).2 = Ok db' ->
  written (selection_criterias db) (SelectionCriteria.save args clock db sc).1
          (selection_criterias db') /\
  db' = with_selection_criterias (selection_criterias db') db.
Proof.
  rewrite SelectionCriteria_save_table. cbn [fst snd].
  match goal with
  | |- context [Model_save args clock ?self ?table] =>
      pose proof (Model_save_written args clock self table) as Hw;
      destruct (Model_save args clock self table) as [inst [t|e]]
  end; cbn [fst snd result_map] in *; [| discriminate].
  intros H'. injection H' as <-. split; [| reflexivity].
  exact (Hw t eq_refl).
Qed.

Lemma Keyword_save_written (args : SaveArgs) (clock : Clock) (db db' : Store)
    (k : Keyword) :
  (Keyword.save args clock db k).2 = Ok db' ->
  written (keywords db) (Keyword.save args clock db k).1 (keywords db') /\
  db' = with_keywords (keywords db') db.
Proof.
  rewrite Keyword_save_table. cbn [fst snd].
  match goal with
  | |- context [Model_save args clock ?self ?table] =>
      pose proof (Model_save_written args clock self table) as Hw;
      destruct (Model_save args clock self table) as [inst [t|e]]
  end; cbn [fst snd result_map] in *; [| discriminate].
  intros H'. injection H' as <-. split; [| reflexivity].
  exact (Hw t eq_refl).
Qed.

(** [save()] of a SelectionCriteria or a Keyword returns exactly when its
    review is set. *)
Lemma SelectionCriteria_save_returns (clock : Clock) (db : Store)
    (sc : SelectionCriteria) :
  is_Some (SelectionCriteria_review_id sc) ->
  exists db', (SelectionCriteria.save save_defaults clock db sc).2 = Ok db'.
Proof.
  intros Hrev. rewrite SelectionCriteria_save_table. cbn [snd].
  match goal with
  | |- context [Model_save save_defaults clock ?self ?table] =>
      destruct (Model_save_defaults_returns clock self table) as [t Ht]
  end.
  - intros add. cbn. apply bool_decide_eq_true. exact Hrev.
  - rewrite Ht. cbn. eauto.
Qed.

Lemma Keyword_save_returns (clock : Clock) (db : Store) (k : Keyword) :
  is_Some (Keyword_review_id k) ->
  exists db', (Keyword.save save_defaults clock db k).2 = Ok db'.
Proof.
  intros Hrev. rewrite Keyword_save_table. cbn [snd].
  match goal with
  | |- context [Model_save save_defaults clock ?self ?table] =>
      destruct (Model_save_defaults_returns clock self table) as [t Ht]
  end.
  - intros add. cbn. apply bool_decide_eq_true. exact Hrev.
  - rewrite Ht. cbn. eauto.
Qed.

Lemma str_length_app (s t : string) :
  String.length (s ++ t) = (String.length s + String.length t)%nat.
Proof.
  induction s as [|c s IH]; [reflexivity |].
  change (S (String.length (s ++ t)) = S (String.length s + String.length t)).
  rewrite IH. reflexivity.
Qed.

Lemma str_take_200_long (s : string) :
  200 < len s ->
  len (str_take 200 s) = 200 /\ exists rest, s = str_take 200 s ++ rest /\ len rest = len s - 200.
Proof.
  unfold len. intros Hlen.
  assert (Hl : String.length (str_take 200 s) = 200%nat)
    by (rewrite str_take_length; lia).
  split; [rewrite Hl; reflexivity |].
  destruct (str_take_prefix 200 s) as [rest Hrest]. exists rest. split; [exact Hrest |].
  assert (Hsum : String.length s = (String.length (str_take 200 s) + String.length rest)%nat).
  { rewrite Hrest at 1. apply str_length_app. }
  lia.
Qed.

(** Without a review, [save()] raises IntegrityError. *)
Lemma SelectionCriteria_save_rejects (clock : Clock) (db : Store)
    (sc : SelectionCriteria) :
  SelectionCriteria_review_id sc = None ->
  (SelectionCriteria.save save_defaults clock db sc).2 = Raise IntegrityError.
Proof.
  intros Hrev. rewrite SelectionCriteria_save_table. cbn [snd].
  rewrite Model_save_defaults_raises; [reflexivity |].
  intros add. cbn. rewrite Hrev. reflexivity.
Qed.

Lemma Keyword_save_rejects (clock : Clock) (db : Store) (k : Keyword) :
  Keyword_review_id k = None ->
  (Keyword.save save_defaults clock db k).2 = Raise IntegrityError.
Proof.
  intros Hrev. rewrite Keyword_save_table. cbn [snd].
  rewrite Model_save_defaults_raises; [reflexivity |].
  intros add. cbn. rewrite Hrev. reflexivity.
Qed.

(** C6: saving a SelectionCriteria or a Keyword whose description has
    more than 200 characters cuts the description of the instance to its
    first 200 characters and does not reject it for its length: [save()]
    returns exactly when the instance has a review, as it does for a short
    description, and raises IntegrityError when it has none; when it
    returns, the instance is a row of the table and the row stored under
    its key holds the first 200 characters. *)
Theorem save_truncates_description (clock : Clock) (db : Store)
    (sc : SelectionCriteria) (k : Keyword) :
  200 < len (SelectionCriteria_description sc) ->
  200 < len (Keyword_description k) ->
  (SelectionCriteria_description (SelectionCriteria.save save_defaults clock db sc).1
     = str_take 200 (SelectionCriteria_description sc) /\
   len (SelectionCriteria_description
          (SelectionCriteria.save save_defaults clock db sc).1) = 200 /\
   (exists rest, SelectionCriteria_description sc
      = SelectionCriteria_description
          (SelectionCriteria.save save_defaults clock db sc).1 ++ rest) /\
   ((exists db', (SelectionCriteria.save save_defaults clock db sc).2 = Ok db') <->
    is_Some (SelectionCriteria_review_id sc)) /\
   (SelectionCriteria_review_id sc = None ->
    (SelectionCriteria.save save_defaults clock db sc).2 = Raise IntegrityError) /\
   (forall db', (SelectionCriteria.save save_defaults clock db sc).2 = Ok db' ->
      (SelectionCriteria.save save_defaults clock db sc).1 ∈ selection_criterias db' /\
      forall row, row ∈ selection_criterias db' ->
        SelectionCriteria_id row
          = SelectionCriteria_id (SelectionCriteria.save save_defaults clock db sc).1 ->
        SelectionCriteria_description row
          = str_take 200 (SelectionCriteria_description sc))) /\
  (Keyword_description (Keyword.save save_defaults clock db k).1
     = str_take 200 (Keyword_description k) /\
   len (Keyword_description (Keyword.save save_defaults clock db k).1) = 200 /\
   (exists rest, Keyword_description k
      = Keyword_description (Keyword.save save_defaults clock db k).1 ++ rest) /\
   ((exists db', (Keyword.save save_defaults clock db k).2 = Ok db') <->
    is_Some (Keyword_review_id k)) /\
   (Keyword_review_id k = None ->
    (Keyword.save save_defaults clock db k).2 = Raise IntegrityError) /\
   (forall db', (Keyword.save save_defaults clock db k).2 = Ok db' ->
      (Keyword.save save_defaults clock db k).1 ∈ keywords db' /\
      forall row, row ∈ keywords db' ->
        Keyword_id row = Keyword_id (Keyword.save save_defaults clock db k).1 ->
        Keyword_description row = str_take 200 (Keyword_description k))).
Proof.
  intros Hsc Hk. split.
  - destruct (SelectionCriteria_save_fields save_defaults clock db sc) as (Hd & _ & _).
    destruct (str_take_200_long _ Hsc) as (Hlen & rest & Hrest & _).
    split; [exact Hd | split; [rewrite Hd; exact Hlen |]].
    split; [exists rest; rewrite Hd; exact Hrest |].
    split; [| split; [apply SelectionCriteria_save_rejects |]].
    + split; [| apply SelectionCriteria_save_returns].
      intros [db' Hok].
      destruct (SelectionCriteria_review_id sc) as [rid|] eqn:Hrev; [eexists; reflexivity |].
      rewrite SelectionCriteria_save_rejects in Hok by exact Hrev. discriminate Hok.
    + intros db' Hok.
      destruct (SelectionCriteria_save_written _ _ _ _ _ Hok) as [(_ & Hin & Huniq & _) _].
      split; [exact Hin |].
      intros row Hrow Hid. rewrite (Huniq row Hrow Hid). exact Hd.
  - destruct (Keyword_save_fields save_defaults clock db k) as (Hd & _ & _).
    destruct (str_take_200_long _ Hk) as (Hlen & rest & Hrest & _).
    split; [exact Hd | split; [rewrite Hd; exact Hlen |]].
    split; [exists rest; rewrite Hd; exact Hrest |].
    split; [| split; [apply Keyword_save_rejects |]].
    + split; [| apply Keyword_save_returns].
      intros [db' Hok].
      destruct (Keyword_review_id k) as [rid|] eqn:Hrev; [eexists; reflexivity |].
      rewrite Keyword_save_rejects in Hok by exact Hrev. discriminate Hok.
    + intros db' Hok.
      destruct (Keyword_save_written _ _ _ _ _ Hok) as [(_ & Hin & Huniq & _) _].
      split; [exact Hin |].
      intros row Hrow Hid. rewrite (Huniq row Hrow Hid). exact Hd.
Qed.

Lemma save_truncates_description_witness :
  200 < len (SelectionCriteria_description Sample.criteria_long) /\
  200 < len (Keyword_description Sample.kw_long) /\
  SelectionCriteria_description
    (SelectionCriteria.save save_defaults Sample.clock Sample.db Sample.criteria_long).1
    = str_take 200 Sample.long_description /\
  (exists db', (SelectionCriteria.save save_defaults Sample.clock Sample.db
                  Sample.criteria_long).2 = Ok db') /\
  Keyword_description
    (Keyword.save save_defaults Sample.clock Sample.db Sample.kw_long).1
    = str_take 200 Sample.long_description /\
  (exists db', (Keyword.save save_defaults Sample.clock Sample.db
                  Sample.kw_long).2 = Ok db').
Proof.
  assert (H1 : 200 < len (SelectionCriteria_description Sample.criteria_long))
    by (vm_compute; reflexivity).
  assert (H2 : 200 < len (Keyword_description Sample.kw_long))
    by (vm_compute; reflexivity).
  destruct (save_truncates_description Sample.clock Sample.db
              Sample.criteria_long Sample.kw_long H1 H2)
    as [(Hs & _ & _ & Hs_returns & _) (Hk & _ & _ & Hk_returns & _)].
  split; [exact H1 | split; [exact H2 | split; [exact Hs | split; [| split; [exact Hk |]]]]].
  - apply Hs_returns. eexists; reflexivity.
  - apply Hk_returns. eexists; reflexivity.
Defined.

(** A description of 250 characters is stored as its first 200; without a
    review nothing is stored. *)
Example save_250_characters :
  len Sample.long_description = 250 /\
  SelectionCriteria.save save_defaults Sample.clock Sample.db Sample.criteria_long
    = (mkSelectionCriteria (Some 1) (Some 1) "I" (str_repeat "a" 200),
       Ok (with_selection_criterias
             [mkSelectionCriteria (Some 1) (Some 1) "I" (str_repeat "a" 200)]
             Sample.db)) /\
  result_map (fun db' => Keyword_description <$> keywords db')
    (Keyword.save save_defaults Sample.clock Sample.db Sample.kw_long).2
    = Ok ["software"; str_repeat "a" 200; "program"] /\
  SelectionCriteria.save save_defaults Sample.clock Sample.db
    (mkSelectionCriteria None None "I" Sample.long_description)
    = (mkSelectionCriteria None None "I" (str_repeat "a" 200), Raise IntegrityError).
Proof. vm_compute. auto. Qed.

(** ** Review.save *)

Lemma Review_save_table (clock : Clock) (db : Store) (r : Review) :
  Review.save clock db r =
  ((Model_save save_defaults clock
      (mkReview (Review_id r) (Review_name r) (Review_title r)
         (Review_description r) (Review_author_id r) (Review_create_date r)
         (Some (datetime_now clock))
         (Review_objective r) (Review_status r)
         (Review_quality_assessment_cutoff_score r)
         (Review_study_selection_strategy r)
         (Review_quality_assessment_strategy r)
         (Review_data_extraction_strategy r))
      (reviews db)).1,
   result_map (fun table => with_reviews table db)
     (Model_save save_defaults clock
        (mkReview (Review_id r) (Review_name r) (Review_title r)
           (Review_description r) (Review_author_id r) (Review_create_date r)
           (Some (datetime_now clock))
           (Review_objective r) (Review_status r)
           (Review_quality_assessment_cutoff_score r)
           (Review_study_selection_strategy r)
           (Review_quality_assessment_strategy r)
           (Review_data_extraction_strategy r))
        (reviews db)).2).
Proof. unfold Review.save. destruct (Model_save _ _ _ _). reflexivity. Qed.

(** The instance is stamped whether the save returns or raises. *)
Lemma Review_save_last_update (clock : Clock) (db : Store) (r : Review) :
  Review_last_update (Review.save clock db r).1 = Some (datetime_now clock).
Proof.
  unfold Review.save, Model_save, Model_update, Model_insert. cbn.
  repeat case_match; simplify_eq; reflexivity.
Qed.

Lemma Review_save_written (clock : Clock) (db db' : Store) (r : Review) :
  (Review.save clock db r).2 = Ok db' ->
  written (reviews db) (Review.save clock db r).1 (reviews db') /\
  db' = with_reviews (reviews db') db.
Proof.
  rewrite Review_save_table. cbn [fst snd].
  match goal with
  | |- context [Model_save save_defaults clock ?self ?table] =>
      pose proof (Model_save_written save_defaults clock self table) as Hw;
      destruct (Model_save save_defaults clock self table) as [inst [t|e]]
  end; cbn [fst snd result_map] in *; [| discriminate].
  intros H'. injection H' as <-. split; [| reflexivity].
  exact (Hw t eq_refl).
Qed.

(** [save()] of a review with an author and a create_date returns. *)
Lemma Review_save_returns (clock : Clock) (db : Store) (r : Review) :
  is_Some (Review_author_id r) -> is_Some (Review_create_date r) ->
  exists db', (Review.save clock db r).2 = Ok db'.
Proof.
  intros Hauthor Hcreate. rewrite Review_save_table. cbn [snd].
  match goal with
  | |- context [Model_save save_defaults clock ?self ?table] =>
      destruct (Model_save_defaults_returns clock self table) as [t Ht]
  end.
  - intros [|]; cbn; rewrite !andb_true_iff, !bool_decide_eq_true; eauto.
  - rewrite Ht. cbn. eauto.
Qed.

(** [save()] of a review returns exactly when the review has an author
    and, if a row is stored under its id, so that the row is updated, a
    create_date; otherwise it raises IntegrityError. *)
Lemma Review_save_returns_iff (clock : Clock) (db : Store) (r : Review) :
  ((exists db', (Review.save clock db r).2 = Ok db') <->
   is_Some (Review_author_id r) /\
   (is_Some (Review_create_date r) \/
    forall i row, Review_id r = Some i -> row ∈ reviews db -> Review_id row <> Some i)) /\
  ((Review.save clock db r).2 = Raise IntegrityError \/
   exists db', (Review.save clock db r).2 = Ok db').
Proof.
  rewrite Review_save_table. cbn [fst snd].
  unfold Model_save, Model_update, Model_insert, save_defaults.
  cbn [force_insert force_update andb pk set_pk pre_save not_null Review_Model
       Review_id Review_author_id Review_create_date Review_last_update].
  assert (Hsome : forall (A : Type) (x : A), is_Some (Some x)) by (intros; eexists; reflexivity).
  assert (Hnone : forall (A : Type), ~ is_Some (@None A)) by (intros A [x Hx]; discriminate).
  destruct (Review_id r) as [i|].
  - destruct (decide (Exists (fun row => Review_id row = Some i) (reviews db)))
      as [Hex | Hno].
    + apply Exists_exists in Hex. destruct Hex as (row & Hrow & Hid).
      destruct (Review_author_id r) as [a|], (Review_create_date r) as [c|]; cbn;
        (split; [split | eauto]).
      all: try (intros _; eauto; fail).
      all: try (intros [db' Hdb']; discriminate).
      * intros [_ [Hc | Hfree]]; [destruct (Hnone _ Hc) |].
        destruct (Hfree i row eq_refl Hrow Hid).
      * intros [Ha _]. destruct (Hnone _ Ha).
      * intros [Ha _]. destruct (Hnone _ Ha).
    + destruct (Review_author_id r) as [a|]; cbn.
      * split; [split | eauto].
        -- intros _. split; [apply Hsome |]. right.
           intros i' row Hi Hrow Hid. injection Hi as <-.
           apply Hno, Exists_exists. eauto.
        -- eauto.
      * split; [split | eauto].
        -- intros [db' Hdb']. discriminate.
        -- intros [Ha _]. destruct (Hnone _ Ha).
  - destruct (Review_author_id r) as [a|]; cbn; (split; [split | eauto]).
    + intros _. split; [apply Hsome |]. right. intros i row Hi. discriminate.
    + eauto.
    + intros [db' Hdb']. discriminate.
    + intros [Ha _]. destruct (Hnone _ Ha).
Qed.

(** C4 (counterexample): a review handed to [save] with a last_update
    later than the clock's reading comes back with an earlier one. *)
Lemma save_last_update_can_go_back :
  ~ (forall (clock : Clock) (db : Store) (r : Review) (before : datetime),
       Review_last_update r = Some before ->
       Review_last_update (Review.save clock db r).1 = Some (datetime_now clock) /\
       exists after, Review_last_update (Review.save clock db r).1 = Some after /\
                     before <= after).
Proof.
  intros H.
  destruct (H (mkClock 5 5) Sample.db Sample.review 20 eq_refl) as (_ & after & Hafter & Hle).
  vm_compute in Hafter. injection Hafter as <-. lia.
Qed.

(** C4 (amended): saving a Review stamps last_update on the instance with
    the clock's reading, whatever value the caller supplied, and when the
    save returns the row stored under its key carries that stamp.  The
    save returns exactly when the review has an author and, if a row is
    stored under its id, a create_date; otherwise it raises
    IntegrityError and stores nothing.  The new value is no earlier than
    the one before the save when that one is no later than the clock's
    reading, and a later save, with a clock that has not gone back, does
    not decrease it. *)
Theorem save_stamps_last_update (clock : Clock) (db : Store) (r : Review) :
  Review_last_update (Review.save clock db r).1 = Some (datetime_now clock) /\
  (forall db', (Review.save clock db r).2 = Ok db' ->
     (Review.save clock db r).1 ∈ reviews db' /\
     forall row, row ∈ reviews db' ->
       Review_id row = Review_id (Review.save clock db r).1 ->
       Review_last_update row = Some (datetime_now clock)) /\
  ((exists db', (Review.save clock db r).2 = Ok db') <->
   is_Some (Review_author_id r) /\
   (is_Some (Review_create_date r) \/
    forall i row, Review_id r = Some i -> row ∈ reviews db -> Review_id row <> Some i)) /\
  ((Review.save clock db r).2 = Raise IntegrityError \/
   exists db', (Review.save clock db r).2 = Ok db') /\
  (forall before, Review_last_update r = Some before ->
     before <= datetime_now clock ->
     exists after, Review_last_update (Review.save clock db r).1 = Some after /\
                   before <= after) /\
  (forall clock', datetime_now clock <= datetime_now clock' ->
     exists t t',
       Review_last_update (Review.save clock db r).1 = Some t /\
       Review_last_update
         (Review.save clock' (store_after db (Review.save clock db r).2)
            (Review.save clock db r).1).1
         = Some t' /\
       t <= t').
Proof.
  pose proof (Review_save_last_update clock db r) as Hstamp.
  split; [exact Hstamp | split; [| split; [| split; [| split]]]].
  - intros db' Hok.
    destruct (Review_save_written clock db db' r Hok) as [(_ & Hin & Huniq & _) _].
    split; [exact Hin |].
    intros row Hrow Hid. rewrite (Huniq row Hrow Hid). exact Hstamp.
  - apply Review_save_returns_iff.
  - apply Review_save_returns_iff.
  - intros before _ Hle. exists (datetime_now clock). auto.
  - intros clock' Hle. exists (datetime_now clock), (datetime_now clock').
    split; [exact Hstamp | split; [apply Review_save_last_update | exact Hle]].
Qed.

Lemma save_stamps_last_update_witness :
  (exists db', (Review.save Sample.clock Sample.db Sample.review).2 = Ok db') /\
  exists after,
    Review_last_update (Review.save Sample.clock Sample.db Sample.review).1 = Some after /\
    20 <= after.
Proof.
  destruct (save_stamps_last_update Sample.clock Sample.db Sample.review)
    as (_ & _ & Hreturns & _ & Hlater & _).
  split.
  - apply Hreturns. split; [eexists; reflexivity | left; eexists; reflexivity].
  - apply (Hlater 20).
    + reflexivity.
    + vm_compute. discriminate.
Defined.

Example save_sample_review :
  Review_last_update (Review.save Sample.clock Sample.db Sample.review).1 = Some 1000 /\
  result_map (fun db' => Review_last_update <$> reviews db')
    (Review.save Sample.clock Sample.db Sample.review).2 = Ok [Some 1000] /\
  Review_create_date (Review.save Sample.clock Sample.db Sample.review).1 = Some 10 /\
  Review.save Sample.clock Sample.db
    (mkReview None "slr" "" "" None None (Some 20) "" "U" 0%float "S" "S" "S")
  = (mkReview None "slr" "" "" None (Some 1000) (Some 1000) "" "U" 0%float "S" "S" "S",
     Raise IntegrityError).
Proof. vm_compute. auto. Qed.

(** ** Article.get_score *)

Lemma get_score_loop_answered (db : Store) (qas : list QualityAssessment)
    (weights : list float) (score : float) :
  Forall2 (fun qa w => exists a, QualityAssessment.answer db qa = Ok (Some a) /\
                                 QualityAnswer_weight a = w) qas weights ->
  Article.get_score_loop db qas score = Ok (foldl PrimFloat.add score weights).
Proof.
  intros Hall. revert score.
  induction Hall as [|qa w qas ws (a & Ha & Hw) _ IH]; intros score; [reflexivity |].
  cbn. rewrite Ha. cbn. rewrite Hw. apply IH.
Qed.

Lemma get_score_loop_unanswered (db : Store) (qas : list QualityAssessment)
    (score : float) (qa : QualityAssessment) :
  qa ∈ qas -> QualityAssessment_answer_id qa = None ->
  exists e, Article.get_score_loop db qas score = Raise e.
Proof.
  intros Hin Hnone. revert score.
  induction qas as [|qa0 qas IH]; intros score; [inversion Hin |].
  apply elem_of_cons in Hin. destruct Hin as [<- | Hin].
  - cbn. unfold QualityAssessment.answer. rewrite Hnone. cbn. eauto.
  - cbn. destruct (QualityAssessment.answer db qa0) as [[a|]|e]; cbn; eauto.
Qed.

(** When every assessment of the article has its answer, the score is the
    sum of the weights, added up from 0.0 in the order of the rows. *)
Lemma get_score_answered (db : Store) (article : Article) (weights : list float) :
  Forall2 (fun qa w => exists a, QualityAssessment.answer db qa = Ok (Some a) /\
                                 QualityAnswer_weight a = w)
          (Article.get_quality_assesment db article) weights ->
  Article.get_score db article = Ok (foldl PrimFloat.add 0%float weights).
Proof. apply get_score_loop_answered. Qed.

(** An assessment of the article without an answer makes [get_score]
    raise. *)
Lemma get_score_unanswered (db : Store) (article : Article) (qa : QualityAssessment) :
  qa ∈ quality_assessments db ->
  QualityAssessment_article_id qa = Article_id article ->
  QualityAssessment_answer_id qa = None ->
  exists e, Article.get_score db article = Raise e.
Proof.
  intros Hin Hart Hnone. unfold Article.get_score.
  apply get_score_loop_unanswered with (qa := qa); [| exact Hnone].
  apply list_elem_of_filter. auto.
Qed.

Example get_score_sample :
  Article.get_score Sample.db (Sample.article 7 (Some 4)) = Ok 1.5%float /\
  Article.get_score Sample.db (Sample.article 8 None) = Ok 0%float.
Proof. vm_compute. auto. Qed.

(** C2 (the code at the failing input): with the assessments of the
    article answered by weight 1.0 and by nothing, [get_score] raises
    AttributeError where the specification has the score 1.0. *)
Theorem get_score_unanswered_raises :
  QualityAssessment_answer_id <$> Article.get_quality_assesment Sample.db_unanswered
                                    (Sample.article 7 (Some 4))
    = [Some 2; None] /\
  Article.get_score Sample.db_unanswered (Sample.article 7 (Some 4))
    = Raise AttributeError.
Proof. vm_compute. auto. Qed.

(** ** The order of floats *)

Lemma Prim2SF_not_nan (x : float) :
  is_nan x = false -> Prim2SF x <> S754_nan.
Proof.
  unfold is_nan. rewrite FloatAxioms.eqb_spec. intros H E. rewrite E in H. discriminate H.
Qed.

Lemma SFleb_total (x y : spec_float) :
  x <> S754_nan -> y <> S754_nan -> SFleb x y = false -> SFleb y x = true.
Proof.
  unfold SFleb.
  destruct x as [sx|sx| |sx mx ex], y as [sy|sy| |sy my ey];
    intros Hx Hy; try congruence;
    try (destruct sx); try (destruct sy); cbn; try congruence.
  all: change (Pos.compare_cont Eq) with Pos.compare.
  all: destruct (Z.compare_spec ex ey), (Z.compare_spec ey ex); try lia;
       try congruence.
  all: destruct (Pos.compare_spec mx my), (Pos.compare_spec my mx);
       cbn; try lia; congruence.
Qed.

Lemma SFleb_trans (x y z : spec_float) :
  SFleb x y = true -> SFleb y z = true -> SFleb x z = true.
Proof.
  unfold SFleb.
  destruct x as [sx|sx| |sx mx ex], y as [sy|sy| |sy my ey], z as [sz|sz| |sz mz ez];
    try (destruct sx); try (destruct sy); try (destruct sz); cbn; try congruence.
  all: change (Pos.compare_cont Eq) with Pos.compare.
  all: destruct (Z.compare_spec ex ey), (Z.compare_spec ey ez), (Z.compare_spec ex ez);
       try lia; try congruence.
  all: destruct (Pos.compare_spec mx my), (Pos.compare_spec my mz),
         (Pos.compare_spec mx mz); cbn; try lia; congruence.
Qed.

Lemma float_leb_total (x y : float) :
  is_nan x = false -> is_nan y = false ->
  (x <=? y)%float = false -> (y <=? x)%float = true.
Proof.
  rewrite !leb_spec. intros Hx Hy.
  apply SFleb_total; apply Prim2SF_not_nan; assumption.
Qed.

Lemma float_leb_trans (x y z : float) :
  (x <=? y)%float = true -> (y <=? z)%float = true -> (x <=? z)%float = true.
Proof. rewrite !leb_spec. apply SFleb_trans. Qed.

(** ** The first row of an ordered queryset *)

Section order_by_first.
Context {A : Type} (le : A -> A -> bool) (ok : A -> Prop).
Hypothesis le_total : forall x y, ok x -> ok y -> le x y = false -> le y x = true.
Hypothesis le_trans : forall x y z, le x y = true -> le y z = true -> le x z = true.

Lemma le_refl (x : A) : ok x -> le x x = true.
Proof.
  intros Hx. destruct (le x x) eqn:E; [reflexivity |].
  rewrite (le_total x x Hx Hx E) in E. discriminate E.
Qed.

Lemma insert_by_sorted (x : A) (l : list A) :
  ok x -> Forall ok l ->
  StronglySorted (fun a b => le a b = true) l ->
  StronglySorted (fun a b => le a b = true) (insert_by le x l).
Proof.
  intros Hx Hok Hsorted.
  induction Hsorted as [|y l Hsorted IH Hy]; cbn.
  - repeat constructor.
  - apply Forall_cons in Hok. destruct Hok as [Hoky Hok].
    destruct (le x y) eqn:E.
    + constructor; [constructor; assumption |].
      constructor; [exact E |].
      eapply Forall_impl; [exact Hy |]. intros z Hz. exact (le_trans x y z E Hz).
    + constructor; [apply IH; exact Hok |].
      rewrite insert_by_Permutation. constructor; [| exact Hy].
      apply le_total; assumption.
Qed.

Lemma order_by_sorted (l : list A) :
  Forall ok l -> StronglySorted (fun a b => le a b = true) (order_by le l).
Proof.
  induction 1 as [|x l Hx Hl IH]; [constructor |].
  change (order_by le (x :: l)) with (insert_by le x (order_by le l)).
  apply insert_by_sorted; [exact Hx | | exact IH].
  rewrite order_by_Permutation. exact Hl.
Qed.

(** The first row of [order_by le l] is a row of [l] that comes no later
    than any row of [l]. *)
Lemma order_by_first (l : list A) (x : A) (rest : list A) :
  Forall ok l -> order_by le l = x :: rest ->
  x ∈ l /\ forall y, y ∈ l -> le x y = true.
Proof.
  intros Hok E.
  assert (Hx : x ∈ l) by (apply (elem_of_order_by le); rewrite E; left).
  split; [exact Hx |]. intros y Hy.
  pose proof (order_by_sorted l Hok) as Hsorted. rewrite E in Hsorted.
  apply StronglySorted_inv in Hsorted. destruct Hsorted as [_ Hrest].
  apply (elem_of_order_by le) in Hy. rewrite E in Hy.
  apply elem_of_cons in Hy. destruct Hy as [-> | Hy].
  - apply le_refl. rewrite Forall_forall in Hok. auto.
  - rewrite Forall_forall in Hrest. auto.
Qed.

End order_by_first.

(** ** Review.calculate_quality_assessment_max_score *)

Lemma order_by_nil {A : Type} (le : A -> A -> bool) (l : list A) :
  order_by le l = [] <-> l = [].
Proof.
  split; [| intros ->; reflexivity].
  intros E. apply Permutation_nil_r. rewrite <- E. symmetry. apply order_by_Permutation.
Qed.

Lemma qs_count_zero {A : Type} (qs : list A) :
  (qs_count qs =? 0)%Z = true <-> qs = [].
Proof.
  unfold qs_count. rewrite Z.eqb_eq. destruct qs; cbn; split; try lia; congruence.
Qed.

(** C3: [calculate_quality_assessment_max_score] never raises.  It
    returns 0.0 when the review has no QualityQuestion or no QualityAnswer,
    and when the count does not convert to a float; otherwise it returns
    the count of the review's QualityQuestions times the highest weight
    among the review's QualityAnswers. *)
Theorem calculate_quality_assessment_max_score_spec (db : Store) (r : Review) :
  (exists score, Review.calculate_quality_assessment_max_score db r = Ok score) /\
  (Review.get_quality_assessment_questions db r = [] \/
   Review.get_quality_assessment_answers db r = [] ->
   Review.calculate_quality_assessment_max_score db r = Ok 0%float) /\
  (forall e, float_of_int (qs_count (Review.get_quality_assessment_questions db r))
             = Raise e ->
   Review.calculate_quality_assessment_max_score db r = Ok 0%float) /\
  (forall count,
   float_of_int (qs_count (Review.get_quality_assessment_questions db r)) = Ok count ->
   Review.get_quality_assessment_questions db r <> [] ->
   Review.get_quality_assessment_answers db r <> [] ->
   (forall a, a ∈ Review.get_quality_assessment_answers db r ->
              is_nan (QualityAnswer_weight a) = false) ->
   exists highest,
     highest ∈ Review.get_quality_assessment_answers db r /\
     (forall a, a ∈ Review.get_quality_assessment_answers db r ->
                (QualityAnswer_weight a <=? QualityAnswer_weight highest)%float = true) /\
     Review.calculate_quality_assessment_max_score db r
       = Ok (count * QualityAnswer_weight highest)%float).
Proof.
  unfold Review.calculate_quality_assessment_max_score,
    Review.get_quality_assessment_questions, Review.get_quality_assessment_answers.
  rewrite qs_get_first.
  set (qs := filter (fun q => QualityQuestion_review_id q = Review_id r)
                    (quality_questions db)).
  set (answers := filter (fun a => QualityAnswer_review_id a = Review_id r)
                         (quality_answers db)).
  destruct (order_by QualityAnswer.by_weight_desc answers) as [|top rest] eqn:E.
  - cbn. split; [eauto | split; [reflexivity | split; [reflexivity |]]].
    intros count _ _ Hans. congruence.
  - cbn [bind]. rewrite andb_true_r.
    destruct (qs_count qs =? 0)%Z eqn:E0; cbn [negb].
    + apply qs_count_zero in E0. cbn.
      split; [eauto | split; [reflexivity | split; [reflexivity |]]].
      intros count _ Hqs. congruence.
    + assert (Hqs : qs <> []) by (intros Hnil; apply qs_count_zero in Hnil; congruence).
      unfold int_mul_float.
      destruct (float_of_int (qs_count qs)) as [c|e] eqn:Ec; cbn.
      * split; [eauto | split; [| split]].
        -- intros [Hnil | Hnil]; congruence.
        -- intros e He. discriminate He.
        -- intros count Hc _ _ Hok. injection Hc as <-.
           destruct (order_by_first QualityAnswer.by_weight_desc
                       (fun a => is_nan (QualityAnswer_weight a) = false)) with
             (l := answers) (x := top) (rest := rest) as [Hin Hmax].
           ++ intros x y Hx Hy. apply float_leb_total; assumption.
           ++ intros x y z Hxy Hyz. unfold QualityAnswer.by_weight_desc in *.
              exact (float_leb_trans _ _ _ Hyz Hxy).
           ++ apply Forall_forall. intros a Ha. apply Hok.
              rewrite <- E. apply elem_of_order_by. exact Ha.
           ++ exact E.
           ++ exists top. split; [left | split; [| reflexivity]].
              intros a Ha. apply Hmax.
              apply (elem_of_order_by QualityAnswer.by_weight_desc). rewrite E. exact Ha.
      * split; [eauto | split; [reflexivity | split; [reflexivity |]]].
        intros count Hc. discriminate Hc.
Qed.

Lemma calculate_quality_assessment_max_score_spec_witness :
  exists highest,
    highest ∈ Review.get_quality_assessment_answers Sample.db Sample.review /\
    (forall a, a ∈ Review.get_quality_assessment_answers Sample.db Sample.review ->
               (QualityAnswer_weight a <=? QualityAnswer_weight highest)%float = true) /\
    Review.calculate_quality_assessment_max_score Sample.db Sample.review
      = Ok (3 * QualityAnswer_weight highest)%float.
Proof.
  assert (E : Review.get_quality_assessment_answers Sample.db Sample.review
              = [Sample.answer 2 1; Sample.answer 1 0.5; Sample.answer 3 0])
    by (vm_compute; reflexivity).
  destruct (calculate_quality_assessment_max_score_spec Sample.db Sample.review)
    as (_ & _ & _ & Hproduct).
  apply (Hproduct 3%float).
  - vm_compute. reflexivity.
  - intros H. vm_compute in H. discriminate H.
  - rewrite E. discriminate.
  - intros a Ha. rewrite E in Ha.
    repeat (apply elem_of_cons in Ha; destruct Ha as [-> | Ha]; [reflexivity |]).
    inversion Ha.
Defined.

(** Three questions and the weights 1.0, 0.5 and 0.0 give 3.0; no
    question, or no answer, gives 0.0. *)
Example calculate_quality_assessment_max_score_sample :
  Review.calculate_quality_assessment_max_score Sample.db Sample.review = Ok 3%float /\
  Review.calculate_quality_assessment_max_score
    (mkStore [] [] [] [] [] [] [] (quality_answers Sample.db) [] []) Sample.review
    = Ok 0%float /\
  Review.calculate_quality_assessment_max_score
    (mkStore [] [] [] [] [] [] [] [] (quality_questions Sample.db) []) Sample.review
    = Ok 0%float.
Proof. vm_compute. auto. Qed.

(** * Further properties of the helpers *)

(** ** Ordering by a string column *)

Lemma string_compare_lt_trans (s1 s2 s3 : string) :
  String.compare s1 s2 = Lt -> String.compare s2 s3 = Lt -> String.compare s1 s3 = Lt.
Proof.
  revert s2 s3.
  induction s1 as [|c1 s1 IH]; intros [|c2 s2] [|c3 s3]; cbn; try congruence.
  unfold Ascii.compare.
  destruct (N.compare_spec (N_of_ascii c1) (N_of_ascii c2)) as [E12|L12|G12];
    try congruence;
    destruct (N.compare_spec (N_of_ascii c2) (N_of_ascii c3)) as [E23|L23|G23];
    try congruence;
    destruct (N.compare_spec (N_of_ascii c1) (N_of_ascii c3)) as [E13|L13|G13];
    try lia; try congruence.
  apply IH.
Qed.

Lemma string_leb_trans (s1 s2 s3 : string) :
  String.leb s1 s2 = true -> String.leb s2 s3 = true -> String.leb s1 s3 = true.
Proof.
  unfold String.leb.
  destruct (String.compare s1 s2) eqn:E12; try discriminate;
    destruct (String.compare s2 s3) eqn:E23; try discriminate; intros _ _.
  - apply String.compare_eq_iff in E12. subst s2. rewrite E23. reflexivity.
  - apply String.compare_eq_iff in E12. subst s2. rewrite E23. reflexivity.
  - apply String.compare_eq_iff in E23. subst s3. rewrite E12. reflexivity.
  - rewrite (string_compare_lt_trans s1 s2 s3 E12 E23). reflexivity.
Qed.

Lemma string_leb_total (s1 s2 : string) :
  String.leb s1 s2 = false -> String.leb s2 s1 = true.
Proof.
  intros E. destruct (String.leb_total s1 s2) as [H | H]; [congruence | exact H].
Qed.

(** Rows ordered by a string column come out in ascending order of it. *)
Lemma order_by_string_sorted {A : Type} (key : A -> string) (l : list A) :
  StronglySorted (fun a b => String.leb (key a) (key b) = true)
                 (order_by (fun a b => String.leb (key a) (key b)) l).
Proof.
  apply (order_by_sorted (fun a b => String.leb (key a) (key b)) (fun _ => True)).
  - intros x y _ _. apply string_leb_total.
  - intros x y z. apply string_leb_trans.
  - apply Forall_forall. auto.
Qed.

(** ** Source.set_url, again *)

Lemma str_in_app_l (p s : string) : str_in p (p ++ s) = true.
Proof. apply str_in_occurs. exists "", s. reflexivity. Qed.

(** X1: [set_url] is idempotent: storing the url it produced changes
    nothing, so a scheme is never put in front twice. *)
Theorem set_url_idempotent (s : Source) (v : string) :
  Source.set_url (Source.set_url s v) (Source_url (Source.set_url s v))
  = Source.set_url s v.
Proof.
  unfold Source.set_url.
  destruct (negb (str_in "http://" v) && negb (str_in "https://" v)
            && (0 <? len v)%Z) eqn:E; cbn [Source_url Source_id Source_name Source_is_default].
  - rewrite (str_in_app_l "http://" v). reflexivity.
  - rewrite E. reflexivity.
Qed.

(** X2: the url [set_url] stores is empty exactly when the value is, and
    otherwise "http://" or "https://" occurs in it; the value itself is
    always what the url ends with. *)
Theorem set_url_scheme_or_empty (s : Source) (v : string) :
  (Source_url (Source.set_url s v) = "" <-> v = "") /\
  (v <> "" ->
     (exists a b, Source_url (Source.set_url s v) = a ++ "http://" ++ b) \/
     (exists a b, Source_url (Source.set_url s v) = a ++ "https://" ++ b)) /\
  (Source_url (Source.set_url s v) = v \/
   Source_url (Source.set_url s v) = "http://" ++ v).
Proof.
  unfold Source.set_url.
  destruct (str_in "http://" v) eqn:E1; cbn [negb andb Source_url].
  { split; [| split; [| auto]].
    - reflexivity.
    - intros _. left. apply str_in_occurs. exact E1. }
  destruct (str_in "https://" v) eqn:E2; cbn [negb andb Source_url].
  { split; [| split; [| auto]].
    - reflexivity.
    - intros _. right. apply str_in_occurs. exact E2. }
  destruct v as [|c v].
  - cbn. split; [reflexivity | split; [congruence | auto]].
  - replace (0 <? len (String c v))%Z with true
      by (symmetry; apply Z.ltb_lt; unfold len; cbn [String.length]; lia).
    cbn [Source_url]. split; [| split; [| auto]].
    + split; discriminate.
    + intros _. left. exists "", (String c v). reflexivity.
Qed.

(** ** Saving descriptions, again *)

Lemma str_take_le (n : nat) (s : string) :
  (String.length (str_take n s) <= n)%nat.
Proof. rewrite str_take_length. lia. Qed.

Lemma str_take_twice (n : nat) (s : string) :
  str_take n (str_take n s) = str_take n s.
Proof. apply str_take_short, str_take_le. Qed.

(** X3: whatever the description and the arguments, and whether the save
    returns or raises, after [save] the instance of a SelectionCriteria or
    a Keyword holds at most 200 characters of the description, a prefix of
    what it was given, and a description of at most 200 characters is kept
    as it is. *)
Theorem save_description_at_most_200 (args : SaveArgs) (clock : Clock) (db : Store)
    (sc : SelectionCriteria) (k : Keyword) :
  (len (SelectionCriteria_description (SelectionCriteria.save args clock db sc).1)
     <= 200 /\
   (exists rest, SelectionCriteria_description sc
      = SelectionCriteria_description (SelectionCriteria.save args clock db sc).1
        ++ rest) /\
   (len (SelectionCriteria_description sc) <= 200 ->
    SelectionCriteria_description (SelectionCriteria.save args clock db sc).1
      = SelectionCriteria_description sc)) /\
  (len (Keyword_description (Keyword.save args clock db k).1) <= 200 /\
   (exists rest, Keyword_description k
      = Keyword_description (Keyword.save args clock db k).1 ++ rest) /\
   (len (Keyword_description k) <= 200 ->
    Keyword_description (Keyword.save args clock db k).1 = Keyword_description k)).
Proof.
  destruct (SelectionCriteria_save_fields args clock db sc) as (Hsc & _ & _).
  destruct (Keyword_save_fields args clock db k) as (Hk & _ & _).
  rewrite Hsc, Hk. unfold len. split; (split; [| split]).
  - pose proof (str_take_le 200 (SelectionCriteria_description sc)). lia.
  - apply str_take_prefix.
  - intros Hlen. apply str_take_short. lia.
  - pose proof (str_take_le 200 (Keyword_description k)). lia.
  - apply str_take_prefix.
  - intros Hlen. apply str_take_short. lia.
Qed.

Lemma save_description_at_most_200_witness :
  SelectionCriteria_description
    (SelectionCriteria.save save_defaults Sample.clock Sample.db
       (Sample.criteria 1 "I" "peer reviewed")).1 = "peer reviewed" /\
  Keyword_description
    (Keyword.save save_defaults Sample.clock Sample.db Sample.kw_root).1 = "software".
Proof.
  destruct (save_description_at_most_200 save_defaults Sample.clock Sample.db
              (Sample.criteria 1 "I" "peer reviewed") Sample.kw_root)
    as ((_ & _ & Hsc) & (_ & _ & Hk)).
  split; [apply Hsc | apply Hk]; vm_compute; discriminate.
Defined.

Section model_save_again.
Context {A : Type} `{ModelLaws A}.
Hypothesis pre_save_id : forall add now (a : A), pre_save add now a = a.
Hypothesis not_null_set_pk : forall i (a : A), not_null (set_pk i a) = not_null a.

Lemma update_again (i : Z) (self : A) (table : list A) :
  pk self = Some i ->
  (fun row => if decide (pk row = Some i) then self else row)
    <$> ((fun row => if decide (pk row = Some i) then self else row) <$> table)
  = (fun row => if decide (pk row = Some i) then self else row) <$> table.
Proof.
  intros Hpk. rewrite <- list_fmap_compose. apply list_fmap_ext.
  intros idx row _. cbn.
  destruct (decide (pk row = Some i)) as [Hi | Hi].
  - rewrite decide_True by exact Hpk. reflexivity.
  - rewrite decide_False by exact Hi. reflexivity.
Qed.

Lemma update_inserted (i : Z) (self : A) (table : list A) :
  pk self = Some i ->
  (forall row, row ∈ table -> pk row <> Some i) ->
  (fun row => if decide (pk row = Some i) then self else row)
    <$> (table ++ [self])%list
  = (table ++ [self])%list.
Proof.
  intros Hpk Hfresh. rewrite fmap_app. cbn. rewrite decide_True by exact Hpk.
  f_equal. rewrite <- (list_fmap_id table) at 2. apply list_fmap_ext.
  intros idx row Hrow. cbn. rewrite decide_False; [reflexivity |].
  apply Hfresh. apply list_elem_of_lookup. eauto.
Qed.

(** Saving again what a save without [force_insert] handed back, with the
    same arguments and into the table as the save left it, gives the same
    instance and the same outcome. *)
Lemma Model_save_again (args : SaveArgs) (clock clock' : Clock) (self : A)
    (table : list A) :
  force_insert args = false ->
  Model_save args clock' (Model_save args clock self table).1
    (match (Model_save args clock self table).2 with
     | Ok table' => table'
     | Raise _ => table
     end)
  = Model_save args clock self table.
Proof.
  intros Hfi. unfold Model_save, Model_update, Model_insert.
  rewrite Hfi, ?pre_save_id. cbn [andb].
  destruct (pk self) as [i|] eqn:Hpk.
  - destruct (decide (Exists (fun row => pk row = Some i) table)) as [Hex | Hno].
    + destruct (not_null self) eqn:Hnn; cbn [fst snd]; rewrite ?pre_save_id, ?Hpk.
      * rewrite decide_True.
        2:{ apply Exists_exists in Hex. destruct Hex as (row & Hrow & Hi).
            apply Exists_exists. exists self. split; [| exact Hpk].
            apply list_elem_of_fmap. exists row. rewrite decide_True by exact Hi. auto. }
        rewrite Hnn, (update_again i self table Hpk). reflexivity.
      * try rewrite decide_True by exact Hex. rewrite Hnn. reflexivity.
    + destruct (force_update args) eqn:Hfu; cbn [fst snd].
      * rewrite ?pre_save_id, ?Hpk. try rewrite decide_False by exact Hno.
        rewrite ?Hfu. reflexivity.
      * destruct (not_null self) eqn:Hnn; cbn [fst snd].
        -- rewrite ?Hpk. try rewrite decide_False by exact Hno. cbn [fst snd].
           rewrite ?pre_save_id, ?Hpk.
           rewrite decide_True
             by (apply Exists_exists; exists self; split;
                 [apply elem_of_app; right; left | exact Hpk]).
           rewrite ?Hnn, update_inserted; [reflexivity | exact Hpk |].
           intros row Hrow Hi. apply Hno, Exists_exists. eauto.
        -- rewrite ?pre_save_id, ?Hpk. try rewrite decide_False by exact Hno.
           rewrite ?Hfu, ?Hnn. reflexivity.
  - destruct (force_update args) eqn:Hfu; cbn [fst snd].
    + rewrite ?Hpk. reflexivity.
    + destruct (not_null self) eqn:Hnn; cbn [fst snd].
      * rewrite ?Hpk. cbn [fst snd]. rewrite ?pre_save_id, ?pk_set_pk.
        rewrite decide_True
          by (apply Exists_exists; exists (set_pk (next_pk table) self); split;
              [apply elem_of_app; right; left | apply pk_set_pk]).
        rewrite ?not_null_set_pk, ?Hnn, update_inserted;
          [reflexivity | apply pk_set_pk |].
        intros row Hrow Hi. pose proof (next_pk_fresh table row _ Hrow Hi). lia.
      * rewrite ?pre_save_id, ?Hpk, ?Hfu, ?Hnn. reflexivity.
Qed.

End model_save_again.

(** X4: saving a SelectionCriteria or a Keyword a second time, as the
    first save returned it, with the same arguments ([save()] or
    [save(force_update=True)]) and into the store as the first save left
    it, changes neither the instance nor the store: it returns, or raises,
    as the first save did. *)
Theorem save_again_changes_nothing (force_update : bool) (clock clock' : Clock)
    (db : Store) (sc : SelectionCriteria) (k : Keyword) :
  SelectionCriteria.save (mkSaveArgs false force_update) clock'
    (store_after db
       (SelectionCriteria.save (mkSaveArgs false force_update) clock db sc).2)
    (SelectionCriteria.save (mkSaveArgs false force_update) clock db sc).1
  = SelectionCriteria.save (mkSaveArgs false force_update) clock db sc /\
  Keyword.save (mkSaveArgs false force_update) clock'
    (store_after db (Keyword.save (mkSaveArgs false force_update) clock db k).2)
    (Keyword.save (mkSaveArgs false force_update) clock db k).1
  = Keyword.save (mkSaveArgs false force_update) clock db k.
Proof.
  set (args := mkSaveArgs false force_update).
  assert (Hfi : force_insert args = false) by reflexivity.
  clearbody args. split.
  - destruct (SelectionCriteria_save_fields args clock db sc) as (Hd & _ & _).
    rewrite (SelectionCriteria_save_table args clock' _ _).
    revert Hd. rewrite (SelectionCriteria_save_table args clock db sc).
    cbn [fst snd].
    set (m := Model_save args clock _ (selection_criterias db)). intros Hd.
    assert (Hself : mkSelectionCriteria (SelectionCriteria_id m.1)
                      (SelectionCriteria_review_id m.1)
                      (SelectionCriteria_criteria_type m.1)
                      (str_take 200 (SelectionCriteria_description m.1)) = m.1).
    { rewrite Hd, str_take_twice, <- Hd. destruct (m.1). reflexivity. }
    rewrite Hself.
    assert (Htable : selection_criterias
                       (store_after db
                          (result_map (fun table => with_selection_criterias table db) m.2))
                     = match m.2 with Ok t => t | Raise _ => selection_criterias db end)
      by (destruct (m.2); reflexivity).
    rewrite Htable. unfold m.
    rewrite (@Model_save_again SelectionCriteria SelectionCriteria_Model
               SelectionCriteria_ModelLaws (fun _ _ _ => eq_refl) (fun _ _ => eq_refl)
               args clock clock' _ _ Hfi).
    fold m. destruct m as [inst [t|e]]; reflexivity.
  - destruct (Keyword_save_fields args clock db k) as (Hd & _ & _).
    rewrite (Keyword_save_table args clock' _ _).
    revert Hd. rewrite (Keyword_save_table args clock db k).
    cbn [fst snd].
    set (m := Model_save args clock _ (keywords db)). intros Hd.
    assert (Hself : mkKeyword (Keyword_id m.1) (Keyword_review_id m.1)
                      (str_take 200 (Keyword_description m.1))
                      (Keyword_synonym_of_id m.1) = m.1).
    { rewrite Hd, str_take_twice, <- Hd. destruct (m.1). reflexivity. }
    rewrite Hself.
    assert (Htable : keywords
                       (store_after db (result_map (fun table => with_keywords table db) m.2))
                     = match m.2 with Ok t => t | Raise _ => keywords db end)
      by (destruct (m.2); reflexivity).
    rewrite Htable. unfold m.
    rewrite (@Model_save_again Keyword Keyword_Model Keyword_ModelLaws
               (fun _ _ _ => eq_refl) (fun _ _ => eq_refl) args clock clock' _ _ Hfi).
    fold m. destruct m as [inst [t|e]]; reflexivity.
Qed.

(** With [force_insert] the second save is refused: the key is taken. *)
Example save_again_force_insert :
  (Keyword.save (mkSaveArgs true false) Sample.clock Sample.db
     (mkKeyword None (Some 1) "tool" None)).1
    = mkKeyword (Some 4) (Some 1) "tool" None /\
  (Keyword.save (mkSaveArgs true false) Sample.clock
     (store_after Sample.db
        (Keyword.save (mkSaveArgs true false) Sample.clock Sample.db
           (mkKeyword None (Some 1) "tool" None)).2)
     (mkKeyword (Some 4) (Some 1) "tool" None)).2
    = Raise IntegrityError.
Proof. vm_compute. auto. Qed.

(** ** Selection criteria of a review *)

(** X5: the inclusion and the exclusion criteria of a review are the rows
    of the review with type "I" and with type "E"; no row is in both lists,
    and each list comes in ascending order of description. *)
Theorem inclusion_exclusion_criterias (db : Store) (r : Review) :
  (forall c, c ∈ Review.get_inclusion_criterias db r <->
     c ∈ selection_criterias db /\ SelectionCriteria_review_id c = Review_id r /\
     SelectionCriteria_criteria_type c = SelectionCriteria.INCLUSION) /\
  (forall c, c ∈ Review.get_exclusion_criterias db r <->
     c ∈ selection_criterias db /\ SelectionCriteria_review_id c = Review_id r /\
     SelectionCriteria_criteria_type c = SelectionCriteria.EXCLUSION) /\
  (forall c, c ∈ Review.get_inclusion_criterias db r ->
             c ∉ Review.get_exclusion_criterias db r) /\
  StronglySorted
    (fun a b => String.leb (SelectionCriteria_description a)
                           (SelectionCriteria_description b) = true)
    (Review.get_inclusion_criterias db r) /\
  StronglySorted
    (fun a b => String.leb (SelectionCriteria_description a)
                           (SelectionCriteria_description b) = true)
    (Review.get_exclusion_criterias db r).
Proof.
  unfold Review.get_inclusion_criterias, Review.get_exclusion_criterias.
  assert (Hi : forall c, c ∈ order_by SelectionCriteria.ordering
                 (filter (fun c => SelectionCriteria_review_id c = Review_id r /\
                                   SelectionCriteria_criteria_type c = "I")
                         (selection_criterias db)) <->
               c ∈ selection_criterias db /\ SelectionCriteria_review_id c = Review_id r /\
               SelectionCriteria_criteria_type c = "I").
  { intros c. rewrite elem_of_order_by, list_elem_of_filter. tauto. }
  assert (He : forall c, c ∈ order_by SelectionCriteria.ordering
                 (filter (fun c => SelectionCriteria_review_id c = Review_id r /\
                                   SelectionCriteria_criteria_type c = "E")
                         (selection_criterias db)) <->
               c ∈ selection_criterias db /\ SelectionCriteria_review_id c = Review_id r /\
               SelectionCriteria_criteria_type c = "E").
  { intros c. rewrite elem_of_order_by, list_elem_of_filter. tauto. }
  split; [exact Hi | split; [exact He | split; [| split]]].
  - intros c Hc Hc'. apply Hi in Hc. apply He in Hc'.
    destruct Hc as (_ & _ & HI). destruct Hc' as (_ & _ & HE).
    rewrite HI in HE. discriminate HE.
  - apply (order_by_string_sorted SelectionCriteria_description).
  - apply (order_by_string_sorted SelectionCriteria_description).
Qed.

Example inclusion_exclusion_sample :
  SelectionCriteria_description
    <$> Review.get_inclusion_criterias Sample.db_criteria Sample.review
    = ["empirical study"; "peer reviewed"] /\
  SelectionCriteria_description
    <$> Review.get_exclusion_criterias Sample.db_criteria Sample.review
    = ["not in English"].
Proof. vm_compute. auto. Qed.

(** X6: a SelectionCriteria of a saved review that is saved, with
    [save()], with type "I" is stored, and is then among the inclusion
    criteria of the review and not among its exclusion criteria. *)
Theorem saved_criteria_is_listed (clock : Clock) (db : Store) (r : Review)
    (sc : SelectionCriteria) (rid : Z) :
  Review_id r = Some rid ->
  SelectionCriteria_review_id sc = Some rid ->
  SelectionCriteria_criteria_type sc = SelectionCriteria.INCLUSION ->
  exists db',
    (SelectionCriteria.save save_defaults clock db sc).2 = Ok db' /\
    (SelectionCriteria.save save_defaults clock db sc).1
      ∈ Review.get_inclusion_criterias db' r /\
    (SelectionCriteria.save save_defaults clock db sc).1
      ∉ Review.get_exclusion_criterias db' r.
Proof.
  intros Hrid Hr Ht.
  destruct (SelectionCriteria_save_returns clock db sc) as [db' Hok];
    [rewrite Hr; eauto |].
  destruct (SelectionCriteria_save_fields save_defaults clock db sc) as (_ & Hr' & Ht').
  destruct (SelectionCriteria_save_written _ _ _ _ _ Hok) as [(_ & Hin & _) _].
  exists db'. split; [exact Hok |].
  unfold Review.get_inclusion_criterias, Review.get_exclusion_criterias.
  rewrite !elem_of_order_by, !list_elem_of_filter.
  rewrite Hr', Ht', Hr, Ht, Hrid. split.
  - split; [split; reflexivity | exact Hin].
  - intros [[_ Habs] _]. discriminate Habs.
Qed.

Lemma saved_criteria_is_listed_witness :
  exists db',
    (SelectionCriteria.save save_defaults Sample.clock Sample.db Sample.criteria_long).2
      = Ok db' /\
    (SelectionCriteria.save save_defaults Sample.clock Sample.db Sample.criteria_long).1
      ∈ Review.get_inclusion_criterias db' Sample.review /\
    (SelectionCriteria.save save_defaults Sample.clock Sample.db Sample.criteria_long).1
      ∉ Review.get_exclusion_criterias db' Sample.review.
Proof.
  apply (saved_criteria_is_listed Sample.clock Sample.db Sample.review
           Sample.criteria_long 1); reflexivity.
Defined.

(** ** Keywords of a review *)

(** X7: the keywords [get_keywords] lists are the keywords of the review
    that are a synonym of nothing, in ascending order of description, and
    none of them is among the synonyms [get_synonyms] returns for a saved
    keyword. *)
Theorem get_keywords_roots (db : Store) (r : Review) :
  (forall k, k ∈ Review.get_keywords db r <->
     k ∈ keywords db /\ Keyword_review_id k = Review_id r /\
     Keyword_synonym_of_id k = None) /\
  StronglySorted
    (fun a b => String.leb (Keyword_description a) (Keyword_description b) = true)
    (Review.get_keywords db r) /\
  (forall k0 kid synonyms k,
     Keyword_id k0 = Some kid -> Keyword.get_synonyms db k0 = Ok synonyms ->
     k ∈ synonyms -> k ∉ Review.get_keywords db r).
Proof.
  assert (Hroot : forall k, k ∈ Review.get_keywords db r <->
     k ∈ keywords db /\ Keyword_review_id k = Review_id r /\
     Keyword_synonym_of_id k = None).
  { intros k. unfold Review.get_keywords.
    rewrite elem_of_order_by, list_elem_of_filter. tauto. }
  split; [exact Hroot | split].
  - apply (order_by_string_sorted Keyword_description).
  - intros k0 kid synonyms k Hid Hsyn Hk Hk'.
    apply Hroot in Hk'. destruct Hk' as (_ & _ & Hnone).
    unfold Keyword.get_synonyms in Hsyn.
    destruct (related Review_id (reviews db) (Keyword_review_id k0)) as [r0|e];
      [| discriminate Hsyn].
    cbn in Hsyn. injection Hsyn as <-.
    apply elem_of_order_by, list_elem_of_filter in Hk.
    destruct Hk as [[_ Hs] _]. rewrite Hid, Hnone in Hs. discriminate Hs.
Qed.

Lemma get_keywords_roots_witness :
  Sample.kw_synonym ∉ Review.get_keywords Sample.db Sample.review.
Proof.
  destruct (get_keywords_roots Sample.db Sample.review) as (_ & _ & Hdisjoint).
  apply (Hdisjoint Sample.kw_root 1 [Sample.kw_synonym] Sample.kw_synonym).
  - reflexivity.
  - vm_compute. reflexivity.
  - left.
Defined.

(** X8: the synonyms [get_synonyms] returns come in ascending order of
    description. *)
Theorem get_synonyms_sorted (db : Store) (k : Keyword) (synonyms : list Keyword) :
  Keyword.get_synonyms db k = Ok synonyms ->
  StronglySorted
    (fun a b => String.leb (Keyword_description a) (Keyword_description b) = true)
    synonyms.
Proof.
  unfold Keyword.get_synonyms.
  destruct (related Review_id (reviews db) (Keyword_review_id k)) as [r|e];
    [| discriminate].
  cbn. intros H. injection H as <-.
  apply (order_by_string_sorted Keyword_description).
Qed.

(** The table holds "program" before "application"; the synonyms come
    the other way round. *)
Lemma get_synonyms_sorted_witness :
  Keyword_description <$> keywords Sample.db_synonyms
    = ["software"; "program"; "program"; "application"] /\
  StronglySorted
    (fun a b => String.leb (Keyword_description a) (Keyword_description b) = true)
    [Sample.kw_application; Sample.kw_synonym].
Proof.
  split; [reflexivity |].
  apply (get_synonyms_sorted Sample.db_synonyms Sample.kw_root).
  vm_compute. reflexivity.
Defined.

(** X9: for a keyword that is not saved (its id is None) and whose review
    is a row of the store, the lookup [synonym_of__id=None] selects the
    keywords that are a synonym of nothing: [get_synonyms] returns the root
    keywords of its review, the list [get_keywords] gives. *)
Theorem get_synonyms_of_unsaved_keyword (db : Store) (r : Review) (k : Keyword)
    (rid : Z) :
  Keyword_id k = None ->
  Keyword_review_id k = Some rid ->
  row_of Review_id (reviews db) rid r ->
  Keyword.get_synonyms db k = Ok (Review.get_keywords db r).
Proof.
  intros Hid Hrev Hrow.
  destruct (related_row_of _ _ _ _ Hrow) as (Hrel & Hr & _).
  unfold Keyword.get_synonyms, Review.get_keywords.
  rewrite Hrev, Hrel. cbn [bind]. do 2 f_equal.
  apply list_filter_iff. intros k'. rewrite Hid. reflexivity.
Qed.

Lemma get_synonyms_of_unsaved_keyword_witness :
  Keyword.get_synonyms Sample.db (mkKeyword None (Some 1) "tool" None)
  = Ok (Review.get_keywords Sample.db Sample.review).
Proof.
  apply (get_synonyms_of_unsaved_keyword Sample.db Sample.review
           (mkKeyword None (Some 1) "tool" None) 1); reflexivity.
Defined.

(** X10: a Keyword saved, with [save()], as a synonym of a keyword of the
    same review, a row of the store, is stored, and is then among the
    synonyms of that keyword. *)
Theorem saved_synonym_is_listed (clock : Clock) (db : Store) (r : Review)
    (root k : Keyword) (rid rootid : Z) :
  row_of Review_id (reviews db) rid r ->
  Keyword_review_id root = Some rid ->
  Keyword_id root = Some rootid ->
  Keyword_review_id k = Some rid ->
  Keyword_synonym_of_id k = Some rootid ->
  exists db' synonyms,
    (Keyword.save save_defaults clock db k).2 = Ok db' /\
    Keyword.get_synonyms db' root = Ok synonyms /\
    (Keyword.save save_defaults clock db k).1 ∈ synonyms.
Proof.
  intros Hrow Hrr Hrid Hkr Hks.
  destruct (related_row_of _ _ _ _ Hrow) as (Hrel & Hr & _).
  destruct (Keyword_save_returns clock db k) as [db' Hok]; [rewrite Hkr; eauto |].
  destruct (Keyword_save_fields save_defaults clock db k) as (_ & Hr' & Hs').
  destruct (Keyword_save_written _ _ _ _ _ Hok) as [(_ & Hin & _) Hdb'].
  assert (Hreviews : reviews db' = reviews db) by (rewrite Hdb'; reflexivity).
  exists db'. unfold Keyword.get_synonyms. rewrite Hrr, Hreviews, Hrel. cbn [bind].
  eexists. split; [exact Hok | split; [reflexivity |]].
  rewrite elem_of_order_by, list_elem_of_filter.
  rewrite Hr', Hs', Hkr, Hks, Hrid, Hr. auto.
Qed.

Lemma saved_synonym_is_listed_witness :
  exists db' synonyms,
    (Keyword.save save_defaults Sample.clock Sample.db Sample.kw_long).2 = Ok db' /\
    Keyword.get_synonyms db' Sample.kw_root = Ok synonyms /\
    (Keyword.save save_defaults Sample.clock Sample.db Sample.kw_long).1 ∈ synonyms.
Proof.
  apply (saved_synonym_is_listed Sample.clock Sample.db Sample.review Sample.kw_root
           Sample.kw_long 1 1); reflexivity.
Defined.

(** ** Questions of a review *)

(** X11: the secondary questions are the questions of the review with type
    "S"; what [get_main_question] returns is either a question of the
    review with type "M", which is no secondary question, or the default
    [Question()], and then the review has no question of type "M". *)
Theorem main_and_secondary_questions (db : Store) (r : Review) :
  (forall q, q ∈ Review.get_secondary_questions db r <->
     q ∈ Review.get_questions db r /\ Question_question_type q = Question.SECONDARY) /\
  (forall q, Review.get_main_question db r = Ok q ->
     (q ∈ Review.get_questions db r /\ Question_question_type q = Question.MAIN /\
      q ∉ Review.get_secondary_questions db r) \/
     (q = Question.new /\
      forall q', q' ∈ Review.get_questions db r ->
                 Question_question_type q' <> Question.MAIN)).
Proof.
  assert (Hsec : forall q, q ∈ Review.get_secondary_questions db r <->
     q ∈ Review.get_questions db r /\ Question_question_type q = "S").
  { intros q. unfold Review.get_secondary_questions, Review.get_questions.
    rewrite !list_elem_of_filter. tauto. }
  split; [exact Hsec |].
  intros q. unfold Review.get_main_question. rewrite qs_get_first.
  change (filter _ (questions db)) with (filter (main_question_of r) (questions db)).
  destruct (filter (main_question_of r) (questions db)) as [|q0 qs] eqn:E; cbn.
  - intros H. injection H as <-. right. split; [reflexivity |].
    intros q' Hq' Hm. apply filter_nil_Forall in E. rewrite Forall_forall in E.
    unfold Review.get_questions in Hq'. apply list_elem_of_filter in Hq'.
    destruct Hq' as [Hr Hin]. apply (E q' Hin). split; assumption.
  - intros H. injection H as <-. left.
    assert (H0 : q0 ∈ filter (main_question_of r) (questions db)) by (rewrite E; left).
    apply list_elem_of_filter in H0. destruct H0 as [[Hr Hm] Hin].
    split; [| split; [exact Hm |]].
    + unfold Review.get_questions. apply list_elem_of_filter. auto.
    + intros Hs. apply Hsec in Hs. destruct Hs as [_ Hs].
      rewrite Hm in Hs. discriminate Hs.
Qed.

Lemma main_and_secondary_questions_witness :
  (Sample.q_main ∈ Review.get_questions Sample.db Sample.review /\
   Question_question_type Sample.q_main = Question.MAIN /\
   Sample.q_main ∉ Review.get_secondary_questions Sample.db Sample.review) \/
  (Sample.q_main = Question.new /\
   forall q', q' ∈ Review.get_questions Sample.db Sample.review ->
              Question_question_type q' <> Question.MAIN).
Proof.
  destruct (main_and_secondary_questions Sample.db Sample.review) as [_ Hmain].
  apply Hmain. vm_compute. reflexivity.
Defined.

(** ** Review.get_generic_search_string *)

(** X12: for a saved review, [get_generic_search_string] never raises; it
    returns a search session of the review without a source: a row of the
    table when the table has such a row, and otherwise a session that is
    not saved, with an empty search string. *)
Theorem generic_search_string_of_review (search_sessions : list SearchSession)
    (r : Review) (rid : Z) :
  Review_id r = Some rid ->
  exists s,
    Review.get_generic_search_string search_sessions r = Ok s /\
    SearchSession_review_id s = Some rid /\
    SearchSession_source_id s = None /\
    (s ∈ search_sessions \/
     (SearchSession_id s = None /\ SearchSession_search_string s = "" /\
      forall s', s' ∈ search_sessions ->
                 ~ (SearchSession_review_id s' = Some rid /\
                    SearchSession_source_id s' = None))).
Proof.
  intros Hrid. unfold Review.get_generic_search_string. rewrite qs_get_first, Hrid.
  destruct (filter _ search_sessions) as [|s0 rest] eqn:E; cbn.
  - eexists. split; [reflexivity | split; [reflexivity | split; [reflexivity |]]].
    right. split; [reflexivity | split; [reflexivity |]].
    apply filter_nil_Forall in E. rewrite Forall_forall in E. exact E.
  - exists s0.
    assert (H0 : s0 ∈ s0 :: rest) by left.
    rewrite <- E in H0. apply list_elem_of_filter in H0.
    destruct H0 as [[Hr Hs] Hin]. auto.
Qed.

Lemma generic_search_string_of_review_witness :
  exists s,
    Review.get_generic_search_string Sample.search_sessions Sample.review = Ok s /\
    SearchSession_review_id s = Some 1 /\
    SearchSession_source_id s = None /\
    (s ∈ Sample.search_sessions \/
     (SearchSession_id s = None /\ SearchSession_search_string s = "" /\
      forall s', s' ∈ Sample.search_sessions ->
                 ~ (SearchSession_review_id s' = Some 1 /\
                    SearchSession_source_id s' = None))).
Proof.
  apply (generic_search_string_of_review Sample.search_sessions Sample.review 1).
  reflexivity.
Defined.

Example generic_search_string_sample :
  Review.get_generic_search_string Sample.search_sessions Sample.review
    = Ok (mkSearchSession (Some 2) (Some 1) None "software testing") /\
  Review.get_generic_search_string [] Sample.review
    = Ok (mkSearchSession None (Some 1) None "").
Proof. vm_compute. auto. Qed.

(** ** Articles of a review *)

(** X13: the accepted articles are the articles [get_source_articles]
    returns without a source id that have status "A". *)
Theorem accepted_articles_of_all (db : Store) (r : Review) :
  Review.get_accepted_articles db r
  = filter (fun a => Article_status a = Article.ACCEPTED)
           (Review.get_source_articles db r None).
Proof.
  unfold Review.get_accepted_articles, Review.get_source_articles.
  rewrite list_filter_filter. apply list_filter_iff. intros a. tauto.
Qed.

(** X14: the articles returned for a source id are a sublist of the
    articles returned without one, and no article is returned for two
    different source ids. *)
Theorem source_articles_sublists (db : Store) (r : Review) (sid sid' : Z) :
  Review.get_source_articles db r (Some sid)
    `sublist_of` Review.get_source_articles db r None /\
  (sid <> sid' ->
   forall a, a ∈ Review.get_source_articles db r (Some sid) ->
             a ∉ Review.get_source_articles db r (Some sid')).
Proof.
  unfold Review.get_source_articles. split.
  - rewrite <- (list_filter_filter_l
                  (fun a => Article_review_id a = Review_id r /\
                            Article_source_id a = Some sid)
                  (fun a => Article_review_id a = Review_id r) (articles db))
      by tauto.
    apply sublist_filter.
  - intros Hne a Ha Ha'. apply list_elem_of_filter in Ha, Ha'.
    destruct Ha as [[_ Hs] _]. destruct Ha' as [[_ Hs'] _]. congruence.
Qed.

Lemma source_articles_sublists_witness :
  Sample.article 7 (Some 4)
    ∉ Review.get_source_articles Sample.db Sample.review (Some 5).
Proof.
  destruct (source_articles_sublists Sample.db Sample.review 4 5) as [_ Hdisjoint].
  apply Hdisjoint; [discriminate |].
  apply list_elem_of_filter. split; [split; reflexivity | left].
Defined.

(** ** Article.get_score, again *)

Lemma answers_resolve (db : Store) (qas : list QualityAssessment) :
  Forall (fun qa => exists i a,
            QualityAssessment_answer_id qa = Some i /\
            filter (fun a' => QualityAnswer_id a' = Some i) (quality_answers db) = [a])
         qas ->
  exists weights,
    Forall2 (fun qa w => exists a, QualityAssessment.answer db qa = Ok (Some a) /\
                                   QualityAnswer_weight a = w) qas weights /\
    Forall2 (fun qa w => exists a, a ∈ quality_answers db /\
                                   QualityAnswer_id a = QualityAssessment_answer_id qa /\
                                   QualityAnswer_weight a = w) qas weights.
Proof.
  induction 1 as [|qa qas (i & a & Hid & Hrow) _ (ws & IH1 & IH2)].
  - exists []. split; constructor.
  - assert (Ha : a ∈ filter (fun a' => QualityAnswer_id a' = Some i) (quality_answers db))
      by (rewrite Hrow; left).
    apply list_elem_of_filter in Ha. destruct Ha as [Hai Hain].
    exists (QualityAnswer_weight a :: ws). split; constructor; try assumption.
    + exists a. unfold QualityAssessment.answer. rewrite Hid, Hrow. auto.
    + exists a. rewrite Hid. auto.
Qed.

(** X15: when every assessment of the article names an answer, and each
    such id is the key of exactly one row of the answer table, [get_score]
    returns the sum of the weights of those answers, added from 0.0 in the
    order of the assessments. *)
Theorem get_score_sums_weights (db : Store) (article : Article) :
  Forall (fun qa => exists i a,
            QualityAssessment_answer_id qa = Some i /\
            filter (fun a' => QualityAnswer_id a' = Some i) (quality_answers db) = [a])
         (Article.get_quality_assesment db article) ->
  exists weights,
    Forall2 (fun qa w => exists a, a ∈ quality_answers db /\
                                   QualityAnswer_id a = QualityAssessment_answer_id qa /\
                                   QualityAnswer_weight a = w)
            (Article.get_quality_assesment db article) weights /\
    Article.get_score db article = Ok (foldl PrimFloat.add 0%float weights).
Proof.
  intros Hall. destruct (answers_resolve db _ Hall) as (ws & H1 & H2).
  exists ws. split; [exact H2 |].
  unfold Article.get_score. apply get_score_loop_answered. exact H1.
Qed.

Lemma get_score_sums_weights_witness :
  exists weights,
    Forall2 (fun qa w => exists a, a ∈ quality_answers Sample.db /\
                                   QualityAnswer_id a = QualityAssessment_answer_id qa /\
                                   QualityAnswer_weight a = w)
            (Article.get_quality_assesment Sample.db (Sample.article 7 (Some 4)))
            weights /\
    Article.get_score Sample.db (Sample.article 7 (Some 4))
      = Ok (foldl PrimFloat.add 0%float weights).
Proof.
  apply (get_score_sums_weights Sample.db (Sample.article 7 (Some 4))).
  change (Article.get_quality_assesment Sample.db (Sample.article 7 (Some 4)))
    with [Sample.assessment 1 (Some 2); Sample.assessment 2 (Some 1);
          Sample.assessment 3 (Some 3)].
  repeat constructor.
  - exists 2, (Sample.answer 2 1). split; reflexivity.
  - exists 1, (Sample.answer 1 0.5). split; reflexivity.
  - exists 3, (Sample.answer 3 0). split; reflexivity.
Defined.

(** X16: an assessment of the article without an answer makes [get_score]
    raise, whatever the other assessments are. *)
Theorem get_score_raises_without_answer (db : Store) (article : Article)
    (qa : QualityAssessment) :
  qa ∈ Article.get_quality_assesment db article ->
  QualityAssessment_answer_id qa = None ->
  exists e, Article.get_score db article = Raise e.
Proof.
  intros Hin Hnone. unfold Article.get_score.
  apply get_score_loop_unanswered with (qa := qa); assumption.
Qed.

Lemma get_score_raises_without_answer_witness :
  exists e, Article.get_score Sample.db_unanswered (Sample.article 7 (Some 4)) = Raise e.
Proof.
  apply (get_score_raises_without_answer Sample.db_unanswered
           (Sample.article 7 (Some 4)) (Sample.assessment 2 None)).
  - right. left.
  - reflexivity.
Defined.

(** ** Review.is_author_or_coauthor, again *)

(** X17: when the author of a review is a user of the store, a user with
    the author's id gets the answer true without the co-authors being
    read: whether the review is saved or not, and whatever the co-author
    table holds. *)
Theorem author_is_recognised (db : Store) (r : Review) (user : User)
    (author_id : Z) (author : User) :
  Review_author_id r = Some author_id ->
  row_of User_id (users db) author_id author ->
  User_id user = Some author_id ->
  Review.is_author_or_coauthor db r user = Ok true.
Proof.
  intros Hauthor Hrow Huser.
  destruct (related_row_of _ _ _ _ Hrow) as (Hrel & Haid & _).
  unfold Review.is_author_or_coauthor.
  rewrite Hauthor, Hrel. cbn [bind].
  rewrite decide_True by congruence. reflexivity.
Qed.

Lemma author_is_recognised_witness :
  Review.is_author_or_coauthor Sample.db Sample.draft Sample.alice = Ok true.
Proof.
  apply (author_is_recognised Sample.db Sample.draft Sample.alice 1 Sample.alice);
    reflexivity.
Defined.

(** X18: [is_author_or_coauthor] raises DoesNotExist for a review that
    has no author, or whose author is no user of the store; when the
    author is one, it raises ValueError for a review that is not saved and
    a user who is not its author, since the co-authors of such a review
    cannot be read. *)
Theorem is_author_or_coauthor_raises (db : Store) (r : Review) (user : User) :
  (Review_author_id r = None ->
   Review.is_author_or_coauthor db r user = Raise DoesNotExist) /\
  (forall author_id, Review_author_id r = Some author_id ->
   (forall u, u ∈ users db -> User_id u <> Some author_id) ->
   Review.is_author_or_coauthor db r user = Raise DoesNotExist) /\
  (forall author_id author, Review_author_id r = Some author_id ->
   row_of User_id (users db) author_id author ->
   User_id user <> Some author_id -> Review_id r = None ->
   Review.is_author_or_coauthor db r user = Raise ValueError).
Proof.
  unfold Review.is_author_or_coauthor. split; [| split].
  - intros ->. reflexivity.
  - intros author_id -> Hmissing. rewrite related_missing by exact Hmissing.
    reflexivity.
  - intros author_id author -> Hrow Hne Hunsaved.
    destruct (related_row_of _ _ _ _ Hrow) as (Hrel & Haid & _).
    rewrite Hrel. cbn [bind]. rewrite decide_False by congruence.
    unfold Review.co_authors_all. rewrite Hunsaved. reflexivity.
Qed.

Lemma is_author_or_coauthor_raises_witness :
  Review.is_author_or_coauthor Sample.db Sample.draft Sample.bob = Raise ValueError /\
  Review.is_author_or_coauthor Sample.db
    (mkReview (Some 1) "slr" "" "" (Some 9) None None "" "U" 0%float "S" "S" "S")
    Sample.bob = Raise DoesNotExist /\
  Review.is_author_or_coauthor Sample.db
    (mkReview (Some 1) "slr" "" "" None None None "" "U" 0%float "S" "S" "S")
    Sample.bob = Raise DoesNotExist.
Proof.
  split; [| split].
  - destruct (is_author_or_coauthor_raises Sample.db Sample.draft Sample.bob)
      as (_ & _ & Hunsaved).
    apply (Hunsaved 1 Sample.alice); [reflexivity | reflexivity | discriminate | reflexivity].
  - destruct (is_author_or_coauthor_raises Sample.db
                (mkReview (Some 1) "slr" "" "" (Some 9) None None "" "U" 0%float "S" "S" "S")
                Sample.bob) as (_ & Hmissing & _).
    apply (Hmissing 9); [reflexivity |].
    intros u Hu.
    change (users Sample.db) with [Sample.alice; Sample.bob; Sample.carol] in Hu.
    repeat (apply elem_of_cons in Hu; destruct Hu as [-> | Hu]; [discriminate |]).
    inversion Hu.
  - destruct (is_author_or_coauthor_raises Sample.db
                (mkReview (Some 1) "slr" "" "" None None None "" "U" 0%float "S" "S" "S")
                Sample.bob) as (Hnone & _).
    apply Hnone. reflexivity.
Defined.

(** ** Quality answers and lookup values in order *)

(** X19: when no weight is NaN, [get_quality_assessment_answers] lists
    the answers of the review heaviest first, each as often as the table
    holds it. *)
Theorem quality_answers_heaviest_first (db : Store) (r : Review) :
  (forall a, a ∈ quality_answers db -> QualityAnswer_review_id a = Review_id r ->
             is_nan (QualityAnswer_weight a) = false) ->
  StronglySorted
    (fun a b => (QualityAnswer_weight b <=? QualityAnswer_weight a)%float = true)
    (Review.get_quality_assessment_answers db r) /\
  Review.get_quality_assessment_answers db r
    ≡ₚ filter (fun a => QualityAnswer_review_id a = Review_id r) (quality_answers db).
Proof.
  intros Hok. unfold Review.get_quality_assessment_answers.
  split; [| apply order_by_Permutation].
  apply (order_by_sorted QualityAnswer.by_weight_desc
           (fun a => is_nan (QualityAnswer_weight a) = false)).
  - intros x y Hx Hy. apply float_leb_total; assumption.
  - intros x y z Hxy Hyz. unfold QualityAnswer.by_weight_desc in *.
    exact (float_leb_trans _ _ _ Hyz Hxy).
  - apply Forall_forall. intros a Ha. apply list_elem_of_filter in Ha.
    destruct Ha as [Hr Hin]. auto.
Qed.

Lemma quality_answers_heaviest_first_witness :
  StronglySorted
    (fun a b => (QualityAnswer_weight b <=? QualityAnswer_weight a)%float = true)
    (Review.get_quality_assessment_answers Sample.db Sample.review) /\
  Review.get_quality_assessment_answers Sample.db Sample.review
    ≡ₚ filter (fun a => QualityAnswer_review_id a = Review_id Sample.review)
              (quality_answers Sample.db).
Proof.
  apply (quality_answers_heaviest_first Sample.db Sample.review).
  intros a Ha _.
  change (quality_answers Sample.db)
    with [Sample.answer 1 0.5; Sample.answer 2 1; Sample.answer 3 0] in Ha.
  repeat (apply elem_of_cons in Ha; destruct Ha as [-> | Ha]; [reflexivity |]).
  inversion Ha.
Defined.

Example quality_answers_sample :
  QualityAnswer_weight <$> Review.get_quality_assessment_answers Sample.db Sample.review
  = [1%float; 0.5%float; 0%float].
Proof. vm_compute. reflexivity. Qed.

(** X20: [get_select_values] returns the lookup values of the field, and
    of no other field, in ascending order of value. *)
Theorem select_values_of_field (lookups : list DataExtractionLookup)
    (f : DataExtractionField) :
  (forall v, v ∈ DataExtractionField.get_select_values lookups f <->
     v ∈ lookups /\ DataExtractionLookup_field_id v = DataExtractionField_id f) /\
  DataExtractionField.get_select_values lookups f
    ≡ₚ filter (fun v => DataExtractionLookup_field_id v = DataExtractionField_id f)
              lookups /\
  StronglySorted
    (fun a b => String.leb (DataExtractionLookup_value a)
                           (DataExtractionLookup_value b) = true)
    (DataExtractionField.get_select_values lookups f).
Proof.
  unfold DataExtractionField.get_select_values. split; [| split].
  - intros v. rewrite elem_of_order_by, list_elem_of_filter. tauto.
  - apply order_by_Permutation.
  - apply (order_by_string_sorted DataExtractionLookup_value).
Qed.

Example select_values_sample :
  DataExtractionLookup_value
    <$> DataExtractionField.get_select_values Sample.lookups Sample.field_select
  = ["experiment"; "survey"].
Proof. vm_compute. reflexivity. Qed.

(** ** Review.save, again *)

(** X21: saving a review that has an author and no id inserts it: the
    save returns, the review gets an id no row of the table had, its
    create_date is the time of the save, and the table gains one row and
    loses none.  Saving a review with an author and a create_date whose id
    is the id of a row updates that row: the save returns, id and
    create_date of the instance stay, and the table keeps its length.
    Saving a review without an author raises IntegrityError. *)
Theorem save_inserts_or_updates (clock : Clock) (db : Store) (r : Review) :
  (Review_id r = None -> is_Some (Review_author_id r) ->
   exists db' i,
     (Review.save clock db r).2 = Ok db' /\
     Review_id (Review.save clock db r).1 = Some i /\
     (forall row, row ∈ reviews db -> Review_id row <> Some i) /\
     Review_create_date (Review.save clock db r).1 = Some (timezone_now clock) /\
     length (reviews db') = S (length (reviews db)) /\
     (forall row, row ∈ reviews db -> row ∈ reviews db')) /\
  (forall i, Review_id r = Some i ->
   (exists row, row ∈ reviews db /\ Review_id row = Some i) ->
   is_Some (Review_author_id r) -> is_Some (Review_create_date r) ->
   exists db',
     (Review.save clock db r).2 = Ok db' /\
     Review_id (Review.save clock db r).1 = Some i /\
     Review_create_date (Review.save clock db r).1 = Review_create_date r /\
     length (reviews db') = length (reviews db)) /\
  (Review_author_id r = None ->
   (Review.save clock db r).2 = Raise IntegrityError).
Proof.
  rewrite Review_save_table. cbn [fst snd].
  unfold Model_save, Model_update, Model_insert, save_defaults.
  cbn [force_insert force_update andb pk set_pk pre_save not_null Review_Model
       Review_id Review_author_id Review_create_date Review_last_update].
  split; [| split].
  - intros -> [a ->]. cbn.
    eexists _, _. split; [reflexivity | split; [reflexivity | split; [| split; [| split]]]].
    + intros row Hrow Hid.
      pose proof (next_pk_fresh (reviews db) row _ Hrow Hid). lia.
    + reflexivity.
    + unfold with_reviews. cbn [reviews]. rewrite List.length_app. cbn. lia.
    + intros row Hrow. unfold with_reviews. cbn [reviews].
      apply elem_of_app. left. exact Hrow.
  - intros i -> (row & Hrow & Hid) [a ->] [c ->].
    rewrite decide_True by (apply Exists_exists; eauto).
    cbn. eexists. split; [reflexivity | split; [reflexivity | split; [reflexivity |]]].
    unfold with_reviews. cbn [reviews]. apply length_fmap.
  - intros ->. cbn. repeat case_match; reflexivity.
Qed.

Lemma save_inserts_or_updates_witness :
  (exists db' i,
     (Review.save Sample.clock Sample.db Sample.draft).2 = Ok db' /\
     Review_id (Review.save Sample.clock Sample.db Sample.draft).1 = Some i /\
     (forall row, row ∈ reviews Sample.db -> Review_id row <> Some i) /\
     Review_create_date (Review.save Sample.clock Sample.db Sample.draft).1
       = Some (timezone_now Sample.clock) /\
     length (reviews db') = S (length (reviews Sample.db)) /\
     (forall row, row ∈ reviews Sample.db -> row ∈ reviews db')) /\
  (exists db',
     (Review.save Sample.clock Sample.db Sample.review).2 = Ok db' /\
     Review_id (Review.save Sample.clock Sample.db Sample.review).1 = Some 1 /\
     Review_create_date (Review.save Sample.clock Sample.db Sample.review).1 = Some 10 /\
     length (reviews db') = length (reviews Sample.db)).
Proof.
  split.
  - destruct (save_inserts_or_updates Sample.clock Sample.db Sample.draft)
      as (Hinsert & _ & _).
    apply Hinsert; [reflexivity | eexists; reflexivity].
  - destruct (save_inserts_or_updates Sample.clock Sample.db Sample.review)
      as (_ & Hupdate & _).
    apply (Hupdate 1); [reflexivity | | eexists; reflexivity | eexists; reflexivity].
    exists Sample.review. split; [left | reflexivity].
Defined.

(** X22: saving a review writes to the review table only, and there only
    to rows under the id of the saved instance: whether the save returns
    or raises, every other review row, and every row of every other table,
    is as it was. *)
Theorem save_leaves_the_rest (clock : Clock) (db : Store) (r : Review) :
  (forall row, Review_id row <> Review_id (Review.save clock db r).1 ->
     row ∈ reviews (store_after db (Review.save clock db r).2) <-> row ∈ reviews db) /\
  users (store_after db (Review.save clock db r).2) = users db /\
  review_co_authors (store_after db (Review.save clock db r).2) = review_co_authors db /\
  questions (store_after db (Review.save clock db r).2) = questions db /\
  selection_criterias (store_after db (Review.save clock db r).2)
    = selection_criterias db /\
  articles (store_after db (Review.save clock db r).2) = articles db /\
  keywords (store_after db (Review.save clock db r).2) = keywords db /\
  quality_answers (store_after db (Review.save clock db r).2) = quality_answers db /\
  quality_questions (store_after db (Review.save clock db r).2) = quality_questions db /\
  quality_assessments (store_after db (Review.save clock db r).2)
    = quality_assessments db.
Proof.
  pose proof (Review_save_written clock db) as Hw.
  destruct ((Review.save clock db r).2) as [db'|e] eqn:E; cbn [store_after].
  - destruct (Hw db' r E) as [(_ & _ & _ & Hother) Hdb'].
    split; [exact Hother |]. rewrite Hdb'. repeat split.
  - split; [reflexivity | repeat split].
Qed.

(** ** QualityAssessment.__unicode__ *)

Lemma string_of_uint_no_space (d : Decimal.uint) :
  str_in " " (NilEmpty.string_of_uint d) = false.
Proof.
  induction d; cbn [NilEmpty.string_of_uint];
    [reflexivity | rewrite str_in_cons, IHd; reflexivity ..].
Qed.

Lemma str_of_int_no_space (n : Z) : str_in " " (str_of_int n) = false.
Proof.
  unfold str_of_int.
  assert (Hu : forall d, str_in " " (NilZero.string_of_uint d) = false).
  { intros d. pose proof (string_of_uint_no_space d) as Hd.
    destruct d; [reflexivity | exact Hd ..]. }
  destruct (Z.to_int n) as [d | d]; cbn [NilZero.string_of_int]; [apply Hu |].
  rewrite str_in_cons, Hu. reflexivity.
Qed.

Lemma to_int_not_nil (n : Z) :
  Z.to_int n <> Decimal.Pos Decimal.Nil /\ Z.to_int n <> Decimal.Neg Decimal.Nil.
Proof.
  destruct n as [|p|p]; cbn; split; try discriminate;
    intros E; injection E as E; exact (Unsigned.to_uint_nonnil p E).
Qed.

(** [str] is one-to-one on ints. *)
Lemma str_of_int_inj (n m : Z) : str_of_int n = str_of_int m -> n = m.
Proof.
  unfold str_of_int. intros E.
  apply (f_equal NilZero.int_of_string) in E.
  destruct (to_int_not_nil n) as [Hn1 Hn2]. destruct (to_int_not_nil m) as [Hm1 Hm2].
  rewrite !NilZero.isi in E by assumption.
  injection E as E. apply (f_equal Z.of_int) in E.
  rewrite !DecimalZ.of_to in E. exact E.
Qed.

(** Two texts with a space after a part without one agree part by part. *)
Lemma app_space_inj (s1 s2 t1 t2 : string) :
  str_in " " s1 = false -> str_in " " s2 = false ->
  s1 ++ " " ++ t1 = s2 ++ " " ++ t2 -> s1 = s2 /\ t1 = t2.
Proof.
  assert (Hspace : forall s, str_in " " (String " " s) = true).
  { intros s. apply str_in_occurs. exists "", s. reflexivity. }
  revert s2. induction s1 as [|c1 s1 IH]; intros [|c2 s2] H1 H2 E.
  - injection E as E. auto.
  - change (String " " t1 = String c2 (s2 ++ " " ++ t2)) in E.
    injection E as Ec E. subst c2. rewrite Hspace in H2. discriminate H2.
  - change (String c1 (s1 ++ " " ++ t1) = String " " t2) in E.
    injection E as Ec E. subst c1. rewrite Hspace in H1. discriminate H1.
  - change (String c1 (s1 ++ " " ++ t1) = String c2 (s2 ++ " " ++ t2)) in E.
    injection E as Ec E. subst c2.
    rewrite str_in_cons in H1, H2.
    apply orb_false_iff in H1, H2. destruct H1 as [_ H1]. destruct H2 as [_ H2].
    destruct (IH s2 H1 H2 E) as [-> ->]. auto.
Qed.

(** A text of [__unicode__] comes from an assessment whose article and
    question are rows of the store, and is made of their ids. *)
Lemma unicode_Ok (db : Store) (qa : QualityAssessment) (text : string) :
  QualityAssessment.__unicode__ db qa = Ok text ->
  exists a q,
    QualityAssessment_article_id qa = Some a /\
    QualityAssessment_question_id qa = Some q /\
    text = str_of_int a ++ " " ++ str_of_int q.
Proof.
  unfold QualityAssessment.__unicode__.
  destruct (related Article_id (articles db) (QualityAssessment_article_id qa))
    as [article|e] eqn:Ea; [| discriminate].
  destruct (related QualityQuestion_id (quality_questions db)
              (QualityAssessment_question_id qa)) as [question|e] eqn:Eq;
    [| discriminate].
  cbn [bind]. intros H. injection H as <-.
  apply related_Ok in Ea, Eq.
  destruct Ea as (a & Ha & Hrow_a). destruct Eq as (q & Hq & Hrow_q).
  destruct (related_row_of _ _ _ _ Hrow_a) as (_ & -> & _).
  destruct (related_row_of _ _ _ _ Hrow_q) as (_ & -> & _).
  exists a, q. auto.
Qed.

(** X23: the text of a QualityAssessment whose article and question are
    rows of the store is the article id, a space and the question id in
    decimal, and the text identifies the pair: two assessments with the
    same text are of the same article and the same question.  An
    assessment whose article or question is unset, or is no row of the
    store, has no text: DoesNotExist is raised. *)
Theorem unicode_identifies_article_and_question (db : Store)
    (qa qa' : QualityAssessment) :
  (forall text, QualityAssessment.__unicode__ db qa = Ok text ->
     QualityAssessment.__unicode__ db qa' = Ok text ->
     QualityAssessment_article_id qa = QualityAssessment_article_id qa' /\
     QualityAssessment_question_id qa = QualityAssessment_question_id qa') /\
  (forall a q article question,
     QualityAssessment_article_id qa = Some a ->
     QualityAssessment_question_id qa = Some q ->
     row_of Article_id (articles db) a article ->
     row_of QualityQuestion_id (quality_questions db) q question ->
     QualityAssessment.__unicode__ db qa = Ok (str_of_int a ++ " " ++ str_of_int q)) /\
  (QualityAssessment_article_id qa = None ->
   QualityAssessment.__unicode__ db qa = Raise DoesNotExist) /\
  (forall a, QualityAssessment_article_id qa = Some a ->
     (forall row, row ∈ articles db -> Article_id row <> Some a) ->
     QualityAssessment.__unicode__ db qa = Raise DoesNotExist) /\
  (forall a article, QualityAssessment_article_id qa = Some a ->
     row_of Article_id (articles db) a article ->
     QualityAssessment_question_id qa = None ->
     QualityAssessment.__unicode__ db qa = Raise DoesNotExist) /\
  (forall a article q, QualityAssessment_article_id qa = Some a ->
     row_of Article_id (articles db) a article ->
     QualityAssessment_question_id qa = Some q ->
     (forall row, row ∈ quality_questions db -> QualityQuestion_id row <> Some q) ->
     QualityAssessment.__unicode__ db qa = Raise DoesNotExist).
Proof.
  split; [| split; [| split; [| split; [| split]]]].
  - intros text H H'.
    apply unicode_Ok in H, H'.
    destruct H as (a & q & -> & -> & ->). destruct H' as (a' & q' & -> & -> & H').
    apply app_space_inj in H'; try apply str_of_int_no_space.
    destruct H' as [Ha Hq].
    apply str_of_int_inj in Ha, Hq. subst. auto.
  - intros a q article question Ha Hq Hrow_a Hrow_q.
    destruct (related_row_of _ _ _ _ Hrow_a) as (Hrel_a & Hid_a & _).
    destruct (related_row_of _ _ _ _ Hrow_q) as (Hrel_q & Hid_q & _).
    unfold QualityAssessment.__unicode__.
    rewrite Ha, Hq, Hrel_a, Hrel_q. cbn [bind]. rewrite Hid_a, Hid_q. reflexivity.
  - intros Ha. unfold QualityAssessment.__unicode__. rewrite Ha. reflexivity.
  - intros a Ha Hmissing. unfold QualityAssessment.__unicode__.
    rewrite Ha, related_missing by exact Hmissing. reflexivity.
  - intros a article Ha Hrow_a Hq.
    destruct (related_row_of _ _ _ _ Hrow_a) as (Hrel_a & _ & _).
    unfold QualityAssessment.__unicode__. rewrite Ha, Hq, Hrel_a. reflexivity.
  - intros a article q Ha Hrow_a Hq Hmissing.
    destruct (related_row_of _ _ _ _ Hrow_a) as (Hrel_a & _ & _).
    unfold QualityAssessment.__unicode__.
    rewrite Ha, Hq, Hrel_a. cbn [bind].
    rewrite related_missing by exact Hmissing. reflexivity.
Qed.

Lemma unicode_identifies_article_and_question_witness :
  QualityAssessment.__unicode__ Sample.db (Sample.assessment 1 (Some 2)) = Ok "7 1" /\
  QualityAssessment_article_id (Sample.assessment 1 (Some 2))
    = QualityAssessment_article_id (Sample.assessment 2 None) /\
  QualityAssessment.__unicode__ Sample.db
    (mkQualityAssessment (Some 4) (Some 1) (Some 9) (Some 1) None (Some 30))
    = Raise DoesNotExist /\
  QualityAssessment.__unicode__ Sample.db
    (mkQualityAssessment (Some 4) (Some 1) (Some 7) (Some 5) None (Some 30))
    = Raise DoesNotExist.
Proof.
  split; [| split; [| split]].
  - destruct (unicode_identifies_article_and_question Sample.db
                (Sample.assessment 1 (Some 2)) (Sample.assessment 2 None))
      as (_ & Htext & _).
    apply (Htext 7 1 (Sample.article 7 (Some 4)) (Sample.quality_question 1));
      reflexivity.
  - destruct (unicode_identifies_article_and_question Sample.db
                (Sample.assessment 1 (Some 2)) (Sample.assessment 2 None))
      as (Hsame & _).
    apply (Hsame "7 1"); vm_compute; reflexivity.
  - destruct (unicode_identifies_article_and_question Sample.db
                (mkQualityAssessment (Some 4) (Some 1) (Some 9) (Some 1) None (Some 30))
                (Sample.assessment 2 None)) as (_ & _ & _ & Hmissing & _).
    apply (Hmissing 9); [reflexivity |].
    intros row Hrow.
    change (articles Sample.db)
      with [Sample.article 7 (Some 4); Sample.article 8 None] in Hrow.
    repeat (apply elem_of_cons in Hrow; destruct Hrow as [-> | Hrow]; [discriminate |]).
    inversion Hrow.
  - destruct (unicode_identifies_article_and_question Sample.db
                (mkQualityAssessment (Some 4) (Some 1) (Some 7) (Some 5) None (Some 30))
                (Sample.assessment 2 None)) as (_ & _ & _ & _ & _ & Hmissing).
    apply (Hmissing 7 (Sample.article 7 (Some 4)) 5); [reflexivity .. |].
    intros row Hrow.
    change (quality_questions Sample.db)
      with [Sample.quality_question 1; Sample.quality_question 2;
            Sample.quality_question 3] in Hrow.
    repeat (apply elem_of_cons in Hrow; destruct Hrow as [-> | Hrow]; [discriminate |]).
    inversion Hrow.
Defined.
